(** * The study-flow workflow of lc-studylab, embedded in Rocq

    The development follows [backend/workflows]: the state record of
    [state.py], the five node functions of [nodes/], the routing function and
    the graph of [study_flow_graph.py].  The graph itself is interpreted by a
    small engine that follows the documented behaviour of the LangGraph
    runtime the repository builds on: nodes run one after the other along the
    edges, each returned dictionary is merged into the state key by key, and
    the run stops in front of every node listed in [interrupt_before].

    Python values are represented as follows.
    - [str] is [string], the bytes of the UTF-8 encoding.  Comparison,
      concatenation and the search for a substring are the same on the
      encoded text.  Case mapping, stripping, splitting at white space and
      the digit test are those of Python on ASCII text ([PyStr.isascii]);
      beyond it Python also maps letters such as "É" and treats U+3000 as
      white space, which the functions of [PyStr] do not.  A statement
      whose truth depends on how a text beyond ASCII is treated carries the
      hypothesis that the text is ASCII.
    - [int] is [Z]; [float] is the primitive binary64 type, which is the
      representation CPython uses.  The conversion of an [int] to a [float]
      is exact below 2^53 in magnitude, which covers every point value a quiz
      can reasonably carry.
    - A dictionary with a fixed set of keys is a record; a dictionary that is
      returned as a partial update is a record of options ([None]: the key is
      not in the dictionary).  [user_answers] is a finite map.
    - A raised exception is a value of [exn]; code that may raise lives in the
      monad [M], which also counts the calls made to the external
      capabilities (chat model, retriever).

    Two fields of the state are left out: [messages] (the chat transcript
    shown to the user) and [updated_at] (a wall-clock stamp).  No node reads
    them, and they do not influence any other field. *)

From Stdlib Require Import ZArith Floats String Ascii List Bool Lia.
From stdpp Require Import gmap strings.
Import ListNotations.

Open Scope string_scope.
Open Scope Z_scope.

(** ** Python strings *)

Module PyStr.


(** [str.isspace] on the ASCII range: TAB, LF, VT, FF, CR, the four
    separators FS, GS, RS, US, and the blank. *)
Definition is_space (c : ascii) : bool :=
  let n := nat_of_ascii c in
  ((9 <=? n)%nat && (n <=? 13)%nat) || ((28 <=? n)%nat && (n <=? 32)%nat).

Definition is_digit (c : ascii) : bool :=
  let n := nat_of_ascii c in (48 <=? n)%nat && (n <=? 57)%nat.

Definition upper_char (c : ascii) : ascii :=
  let n := nat_of_ascii c in
  if (97 <=? n)%nat && (n <=? 122)%nat then ascii_of_nat (n - 32) else c.

Definition lower_char (c : ascii) : ascii :=
  let n := nat_of_ascii c in
  if (65 <=? n)%nat && (n <=? 90)%nat then ascii_of_nat (n + 32) else c.

Fixpoint map_chars (f : ascii -> ascii) (s : string) : string :=
  match s with
  | EmptyString => EmptyString
  | String c s' => String (f c) (map_chars f s')
  end.

(** [s.upper()] and [s.lower()] of an ASCII text *)
Definition upper : string -> string := map_chars upper_char.
Definition lower : string -> string := map_chars lower_char.

Fixpoint rev_onto (s acc : string) : string :=
  match s with
  | EmptyString => acc
  | String c s' => rev_onto s' (String c acc)
  end.

Definition reverse (s : string) : string := rev_onto s EmptyString.

Fixpoint lstrip (s : string) : string :=
  match s with
  | EmptyString => EmptyString
  | String c s' => if is_space c then lstrip s' else s
  end.

Definition rstrip (s : string) : string := reverse (lstrip (reverse s)).

(** [s.strip()] of an ASCII text *)
Definition strip (s : string) : string := rstrip (lstrip s).

(** [sub in s] *)
Fixpoint contains (sub s : string) : bool :=
  String.prefix sub s
  || match s with
     | EmptyString => false
     | String _ s' => contains sub s'
     end.

Definition is_empty (s : string) : bool :=
  match s with EmptyString => true | _ => false end.

(** One pass from the right: the word under construction and the words
    already closed. *)
Fixpoint split_aux (s : string) : string * list string :=
  match s with
  | EmptyString => (EmptyString, [])
  | String c s' =>
      let '(w, ws) := split_aux s' in
      if is_space c
      then (EmptyString, if is_empty w then ws else w :: ws)
      else (String c w, ws)
  end.

(** [s.split()] of an ASCII text: the maximal runs of non-blank
    characters *)
Definition split (s : string) : list string :=
  let '(w, ws) := split_aux s in
  if is_empty w then ws else w :: ws.

(** [s.split(sep)] for a one-character separator: empty pieces are kept *)
Fixpoint split_on (sep : ascii) (s : string) : list string :=
  match s with
  | EmptyString => [EmptyString]
  | String c s' =>
      if Ascii.eqb c sep then EmptyString :: split_on sep s'
      else match split_on sep s' with
           | [] => [String c EmptyString]
           | w :: ws => String c w :: ws
           end
  end.

(** [s.split(sep, 1)]: cut at the first separator only *)
Fixpoint split_once (sep : ascii) (s : string) : list string :=
  match s with
  | EmptyString => [EmptyString]
  | String c s' =>
      if Ascii.eqb c sep then [EmptyString; s']
      else match split_once sep s' with
           | [] => [String c EmptyString]
           | w :: ws => String c w :: ws
           end
  end.

(** [''.join(filter(str.isdigit, s))] of an ASCII text *)
Fixpoint digits_of (s : string) : string :=
  match s with
  | EmptyString => EmptyString
  | String c s' =>
      if is_digit c then String c (digits_of s') else digits_of s'
  end.

Fixpoint decimal_value (acc : Z) (s : string) : Z :=
  match s with
  | EmptyString => acc
  | String c s' => decimal_value (10 * acc + (Z.of_nat (nat_of_ascii c) - 48)) s'
  end.

Definition newline : ascii := ascii_of_nat 10.
Definition colon : ascii := ascii_of_nat 58.

End PyStr.

(** ** Python floats *)

Module PyFloat.

(** [float(z)], for [z] below 2^53 in magnitude *)
Definition of_int (z : Z) : float :=
  if z <? 0 then PrimFloat.opp (PrimFloat.of_uint63 (Uint63.of_Z (- z)))
  else PrimFloat.of_uint63 (Uint63.of_Z z).

(** The integer part of a finite float, rounded towards zero; [None] for an
    infinity or a NaN. *)
Definition truncate (x : float) : option Z :=
  match Prim2SF x with
  | S754_zero _ => Some 0
  | S754_finite sign m e =>
      let v := if 0 <=? e then Z.shiftl (Zpos m) e
               else Z.shiftr (Zpos m) (- e) in
      Some (if sign then - v else v)
  | S754_infinity _ => None
  | S754_nan => None
  end.

End PyFloat.

(** ** Exceptions and the monad of node bodies *)

Inductive exn : Type :=
| ValueError (msg : string)
| AttributeError
| TypeError
| IndexError
| ZeroDivisionError
| OverflowError
| FileNotFoundError
| CapabilityError (msg : string).

Inductive result (A : Type) : Type :=
| Ok (a : A)
| Raise (e : exn).

Arguments Ok {A} a.
Arguments Raise {A} e.

(** The state threaded through a computation is the number of calls made so
    far to the external capabilities. *)
Definition Calls : Type := nat.

Definition M (A : Type) : Type := Calls -> result A * Calls.

Definition ret {A} (a : A) : M A := fun n => (Ok a, n).

Definition raise {A} (e : exn) : M A := fun n => (Raise e, n).

Definition bind {A B} (m : M A) (k : A -> M B) : M B :=
  fun n =>
    match m n with
    | (Ok a, n') => k a n'
    | (Raise e, n') => (Raise e, n')
    end.

(** [try: m  except Exception as e: h e] *)
Definition try_except {A} (m : M A) (h : exn -> M A) : M A :=
  fun n =>
    match m n with
    | (Ok a, n') => (Ok a, n')
    | (Raise e, n') => h e n'
    end.

(** The outermost [try/except] of a node: the handler returns a value. *)
Definition try_return {A} (m : M A) (h : exn -> A) : Calls -> A * Calls :=
  fun n =>
    match m n with
    | (Ok a, n') => (a, n')
    | (Raise e, n') => (h e, n')
    end.

(** One call to an external capability: the answer is the one the
    environment gives to call number [n]. *)
Definition call {A} (oracle : Calls -> result A) : M A :=
  fun n => (oracle n, S n).

Declare Scope py_scope.
Delimit Scope py_scope with py.
Notation "'let!' x ':=' m 'in' k" := (bind m (fun x => k))
  (at level 10, x name, m at level 200, k at level 200) : py_scope.
Open Scope py_scope.

(** [int(x)] on a float *)
Definition py_int (x : float) : M Z :=
  match PyFloat.truncate x with
  | Some z => ret z
  | None => raise OverflowError
  end.

(** [a / b] on two integers below 2^53 in magnitude: true division *)
Definition py_truediv (a b : Z) : M float :=
  if b =? 0 then raise ZeroDivisionError
  else ret (PrimFloat.div (PyFloat.of_int a) (PyFloat.of_int b)).

(** [int(s)] on a string of decimal digits *)
Definition py_int_of_digits (s : string) : M Z :=
  if PyStr.is_empty s then raise (ValueError "invalid literal for int()")
  else ret (PyStr.decimal_value 0 s).

(** [l[0]] *)
Definition py_first {A} (l : list A) : M A :=
  match l with
  | x :: _ => ret x
  | [] => raise IndexError
  end.

(** [l[1]] *)
Definition py_second {A} (l : list A) : M A :=
  match l with
  | _ :: x :: _ => ret x
  | _ => raise IndexError
  end.

(** ** The data model of [state.py] *)

(** [QuizQuestion]; the keys [id], [type], [question], [options], [answer],
    [explanation] and [points] carry the prefix [q_]. *)
Record QuizQuestion : Type := {
  q_id : string;
  q_type : string;
  q_question : string;
  q_options : option (list string);
  q_answer : string;
  q_explanation : string;
  q_points : Z
}.

Record Quiz : Type := {
  questions : list QuizQuestion;
  total_points : Z;
  time_limit : Z
}.

Record LearningPlan : Type := {
  topic : string;
  objectives : list string;
  key_points : list string;
  difficulty : string;
  estimated_time : Z
}.

Record RetrievedDocument : Type := {
  content : string;
  metadata : list (string * string);
  relevance_score : float
}.

(** [ScoreDetail]; its key [feedback] is [detail_feedback] here, the state
    has a key of the same name. *)
Record ScoreDetail : Type := {
  question_id : string;
  user_answer : string;
  correct_answer : string;
  is_correct : bool;
  points_earned : Z;
  points_possible : Z;
  detail_feedback : string
}.

(** The dictionary stored under [score_details]. *)
Record ScoreDetails : Type := {
  correct_count : Z;
  total_count : Z;
  question_scores : list ScoreDetail
}.

(** The text stored under [error] is [f"{prefix}: {str(e)}"]; the two parts
    are kept apart. *)
Definition ErrorText : Type := (string * exn)%type.

(** [StudyFlowState] *)
Record StudyFlowState : Type := {
  user_question : string;
  learning_plan : option LearningPlan;
  retrieved_docs : option (list RetrievedDocument);
  quiz : option Quiz;
  user_answers : option (gmap string string);
  score : option Z;
  score_details : option ScoreDetails;
  feedback : option string;
  retry_count : Z;
  should_retry : bool;
  current_step : string;
  thread_id : string;
  error : option ErrorText;
  error_node : option string
}.

(** The dictionary a node returns: only the keys it sets. *)
Record Update : Type := {
  u_learning_plan : option LearningPlan;
  u_retrieved_docs : option (list RetrievedDocument);
  u_quiz : option Quiz;
  u_user_answers : option (gmap string string);
  u_score : option Z;
  u_score_details : option ScoreDetails;
  u_feedback : option string;
  u_retry_count : option Z;
  u_should_retry : option bool;
  u_current_step : option string;
  u_error : option ErrorText;
  u_error_node : option string
}.

(** The dictionary every node returns from its [except] branch:
    [{"error": ..., "error_node": node, "current_step": step}]. *)
Definition error_update (prefix : string) (node step : string) (e : exn) : Update :=
  {| u_learning_plan := None; u_retrieved_docs := None; u_quiz := None;
     u_user_answers := None; u_score := None; u_score_details := None;
     u_feedback := None; u_retry_count := None; u_should_retry := None;
     u_current_step := Some step;
     u_error := Some (prefix, e);
     u_error_node := Some node |}.

(** ** The external capabilities

    What the chat model, the index and the retriever answer is not decided by
    the repository.  An environment fixes, for every call number, the answer
    that call receives: a value or a raised exception.  The prompt sent to
    the chat model is not represented, the answer may be any text.
    [get_chat_model()], [IndexManager()] and [get_embeddings()] only build
    handles; the capability is exercised by [invoke] and [load_index]. *)

Record Document : Type := {
  page_content : string;
  doc_metadata : list (string * string)
}.

Record Env : Type := {
  (** [model.with_structured_output(LearningPlanSchema).invoke(...)] *)
  plan_model : Calls -> result LearningPlan;
  (** [model.with_structured_output(QuizSchema).invoke(...)] *)
  quiz_model : Calls -> result Quiz;
  (** [model.invoke(...).content] *)
  chat_model : Calls -> result string;
  (** [index_manager.load_index("test_index", embeddings)] followed by
      [create_retriever(vector_store, k=5)] *)
  load_index : Calls -> result unit;
  (** [retriever.invoke(query)] *)
  retriever : Calls -> string -> result (list Document)
}.

(** ** [grading_node] *)

Section Grading.

Variable env : Env.

(** The [try] block that reads the score and the comment out of the chat
    model's answer. *)
Definition parse_reply (response_text : string) (points_possible : Z)
  : M (Z * string) :=
  let lines := PyStr.split_on PyStr.newline (PyStr.strip response_text) in
  let! score_line := py_first
    (List.filter
       (fun l => PyStr.contains "得分" l
                 || PyStr.contains "score" (PyStr.lower l)) lines) in
  let! points_earned := py_int_of_digits (PyStr.digits_of score_line) in
  let points_earned := Z.min (Z.max points_earned 0) points_possible in
  let feedback_line :=
    List.filter
      (fun l => PyStr.contains "评语" l
                || PyStr.contains "feedback" (PyStr.lower l)) lines in
  let! feedback := match feedback_line with
               | l :: _ =>
                   (let! rest := py_second (PyStr.split_once PyStr.colon l) in
                    ret (PyStr.strip rest))
               | [] => ret response_text
               end in
  ret (points_earned, feedback).

(** The first (at most five) words of the lower-cased reference answer. *)
Definition keywords_of (correct_answer : string) : list string :=
  firstn 5 (PyStr.split (PyStr.lower correct_answer)).

(** [sum(1 for kw in keywords if kw in user_answer.lower())] *)
Definition matched_keywords (keywords : list string) (user_answer : string) : Z :=
  Z.of_nat
    (List.length
       (List.filter (fun kw => PyStr.contains kw (PyStr.lower user_answer))
                    keywords)).

(** The [except] branch of the parse: keyword matching. *)
Definition keyword_fallback (correct_answer user_answer : string)
    (points_possible : Z) : M (Z * string) :=
  let keywords := keywords_of correct_answer in
  let matched := matched_keywords keywords user_answer in
  let! ratio := py_truediv matched (Z.of_nat (List.length keywords)) in
  let! points_earned := py_int (PrimFloat.mul ratio (PyFloat.of_int points_possible)) in
  ret (points_earned,
       "得分基于关键词匹配。建议参考标准答案：" +:+ correct_answer).

(** [points_earned >= points_possible * 0.6]; the constant is the binary64
    value nearest to 0.6. *)
Definition reaches_sixty_percent (points_earned points_possible : Z) : bool :=
  PrimFloat.leb
    (PrimFloat.mul (PyFloat.of_int points_possible) 0x1.3333333333333p-1%float)
    (PyFloat.of_int points_earned).

Definition wrong_answer_text (correct_answer : string) : string :=
  "回答错误。正确答案是：" +:+ correct_answer.

(** The body of the loop over the questions, up to the construction of
    [detail]. *)
Definition grade_question (answers : gmap string string) (question : QuizQuestion)
  : M ScoreDetail :=
  let q_id := q_id question in
  let q_type := q_type question in
  let correct_answer := q_answer question in
  let points_possible := q_points question in
  let user_answer := PyStr.strip (default "" (answers !! q_id)) in
  let detail is_correct points_earned feedback :=
    {| question_id := q_id; user_answer := user_answer;
       correct_answer := correct_answer; is_correct := is_correct;
       points_earned := points_earned; points_possible := points_possible;
       detail_feedback := feedback |} in
  if String.eqb q_type "multiple_choice" then
    let is_correct :=
      String.eqb (PyStr.upper user_answer) (PyStr.upper correct_answer) in
    ret (detail is_correct
           (if is_correct then points_possible else 0)
           (if is_correct then "回答正确！" else wrong_answer_text correct_answer))
  else if String.eqb q_type "fill_blank" then
    let is_correct :=
      String.eqb (PyStr.lower user_answer) (PyStr.lower correct_answer) in
    ret (detail is_correct
           (if is_correct then points_possible else 0)
           (if is_correct then "回答正确！" else wrong_answer_text correct_answer))
  else if String.eqb q_type "short_answer" then
    let! response_text := call (chat_model env) in
    let! graded := try_except
      (parse_reply response_text points_possible)
      (fun _ => keyword_fallback correct_answer user_answer points_possible) in
    let points_earned := fst graded in
    ret (detail (reaches_sixty_percent points_earned points_possible)
           points_earned (snd graded))
  else
    ret (detail false 0 "未知题型，无法评分").

(** The loop [for question in questions], with its three accumulators. *)
Fixpoint grade_questions (answers : gmap string string)
    (qs : list QuizQuestion)
    (score_details : list ScoreDetail) (total_earned correct_count : Z)
  : M (list ScoreDetail * Z * Z) :=
  match qs with
  | [] => ret (score_details, total_earned, correct_count)
  | question :: qs' =>
      let! detail := grade_question answers question in
      grade_questions answers qs'
        (score_details ++ [detail])
        (total_earned + points_earned detail)
        (if is_correct detail then correct_count + 1 else correct_count)
  end.

(** [int((total_earned / total_points) * 100) if total_points > 0 else 0] *)
Definition percent_score (total_earned total_points : Z) : M Z :=
  if 0 <? total_points then
    let! ratio := py_truediv total_earned total_points in
    py_int (PrimFloat.mul ratio (PyFloat.of_int 100))
  else ret 0.

Definition grading_update (score : Z) (details : ScoreDetails) : Update :=
  {| u_learning_plan := None; u_retrieved_docs := None; u_quiz := None;
     u_user_answers := None;
     u_score := Some score;
     u_score_details := Some details;
     u_feedback := None; u_retry_count := None; u_should_retry := None;
     u_current_step := Some "grading";
     u_error := None; u_error_node := None |}.

(** The [try] block of [grading_node]. *)
Definition grading_body (state : StudyFlowState) : M Update :=
  match quiz state, user_answers state with
  | Some quiz, Some answers =>
      if bool_decide (answers = ∅)
      then raise (ValueError "练习题或用户答案不存在，无法评分")
      else
        let questions := questions quiz in
        let total_points := total_points quiz in
        let! graded := grade_questions answers questions [] 0 0 in
        let '(score_details, total_earned, correct_count) := graded in
        let! score := percent_score total_earned total_points in
        ret (grading_update score
               {| correct_count := correct_count;
                  total_count := Z.of_nat (List.length questions);
                  question_scores := score_details |})
  | _, _ => raise (ValueError "练习题或用户答案不存在，无法评分")
  end.

Definition grading_node (state : StudyFlowState) : Calls -> Update * Calls :=
  try_return (grading_body state)
             (error_update "评分失败" "grading" "grading_error").

End Grading.

(** ** [planner_node], [retrieval_node], [quiz_generator_node], [feedback_node] *)

Section Nodes.

Variable env : Env.

Definition planner_update (plan : LearningPlan) : Update :=
  {| u_learning_plan := Some plan;
     u_retrieved_docs := None; u_quiz := None; u_user_answers := None;
     u_score := None; u_score_details := None; u_feedback := None;
     u_retry_count := None; u_should_retry := None;
     u_current_step := Some "planner";
     u_error := None; u_error_node := None |}.

Definition planner_node (state : StudyFlowState) : Calls -> Update * Calls :=
  try_return
    (let! plan_response := call (plan_model env) in
     ret (planner_update plan_response))
    (error_update "学习计划生成失败" "planner" "planner_error").

(** Both [return] statements of [retrieval_node] build this dictionary. *)
Definition retrieval_update (docs : list RetrievedDocument) : Update :=
  {| u_learning_plan := None;
     u_retrieved_docs := Some docs;
     u_quiz := None; u_user_answers := None;
     u_score := None; u_score_details := None; u_feedback := None;
     u_retry_count := None; u_should_retry := None;
     u_current_step := Some "retrieval";
     u_error := None; u_error_node := None |}.

(** [1.0 - (i * 0.1)]; the constant is the binary64 value nearest to 0.1. *)
Definition rank_score (i : nat) : float :=
  PrimFloat.sub 1%float
    (PrimFloat.mul (PyFloat.of_int (Z.of_nat i)) 0x1.999999999999ap-4%float).

Definition primary_doc (i : nat) (doc : Document) : RetrievedDocument :=
  {| content := page_content doc; metadata := doc_metadata doc;
     relevance_score := rank_score i |}.

(** The constant is the binary64 value nearest to 0.7. *)
Definition supplementary_doc (doc : Document) : RetrievedDocument :=
  {| content := page_content doc; metadata := doc_metadata doc;
     relevance_score := 0x1.6666666666666p-1%float |}.

(** [for doc in additional_docs[:2]]: append the documents whose text is
    not in the list yet. *)
Fixpoint append_new (additional : list Document)
    (retrieved_docs : list RetrievedDocument) : list RetrievedDocument :=
  match additional with
  | [] => retrieved_docs
  | doc :: rest =>
      append_new rest
        (if existsb (String.eqb (page_content doc)) (map content retrieved_docs)
         then retrieved_docs
         else retrieved_docs ++ [supplementary_doc doc])
  end.

(** [for point in key_points[:2]] inside its own [try]: the list is
    extended in place, so what was appended before a failing query stays. *)
Fixpoint supplement (points : list string)
    (retrieved_docs : list RetrievedDocument)
  : Calls -> list RetrievedDocument * Calls :=
  fun n =>
    match points with
    | [] => (retrieved_docs, n)
    | point :: rest =>
        match retriever env n point with
        | Ok additional_docs =>
            supplement rest (append_new (firstn 2 additional_docs) retrieved_docs) (S n)
        | Raise _ => (retrieved_docs, S n)
        end
    end.

(** The inner [try ... except FileNotFoundError: docs = []]. *)
Definition primary_retrieval (main_query : string) : M (list Document) :=
  try_except
    (let! vector_store := call (load_index env) in
     call (fun n => retriever env n main_query))
    (fun e => match e with
              | FileNotFoundError => ret []
              | _ => raise e
              end).

(** The [try] block of [retrieval_node]. *)
Definition retrieval_body (state : StudyFlowState) : M Update :=
  match learning_plan state with
  | None => raise (ValueError "学习计划不存在，无法进行文档检索")
  | Some learning_plan =>
      let topic := topic learning_plan in
      let key_points := key_points learning_plan in
      let! docs := primary_retrieval topic in
      let retrieved_docs := imap primary_doc docs in
      if (Z.of_nat (List.length retrieved_docs) <? 3)
         && negb (bool_decide (key_points = []))
         && negb (bool_decide (docs = []))
      then
        fun n =>
          let '(retrieved_docs, n') := supplement (firstn 2 key_points) retrieved_docs n in
          (Ok (retrieval_update retrieved_docs), n')
      else ret (retrieval_update retrieved_docs)
  end.

Definition retrieval_node (state : StudyFlowState) : Calls -> Update * Calls :=
  try_return (retrieval_body state) (fun _ => retrieval_update []).

Definition quiz_update (quiz : Quiz) : Update :=
  {| u_learning_plan := None; u_retrieved_docs := None;
     u_quiz := Some quiz;
     u_user_answers := None;
     u_score := None; u_score_details := None; u_feedback := None;
     u_retry_count := None; u_should_retry := None;
     u_current_step := Some "quiz_generated";
     u_error := None; u_error_node := None |}.

(** The retrieved documents only enter the prompt (the first three, 500
    characters each), which is not represented. *)
Definition quiz_generator_body (state : StudyFlowState) : M Update :=
  match learning_plan state with
  | None => raise (ValueError "学习计划不存在，无法生成练习题")
  | Some learning_plan =>
      let! quiz_response := call (quiz_model env) in
      ret (quiz_update quiz_response)
  end.

Definition quiz_generator_node (state : StudyFlowState) : Calls -> Update * Calls :=
  try_return (quiz_generator_body state)
             (error_update "练习题生成失败" "quiz_generator" "quiz_error").

Definition feedback_update (text : string) (should_retry : bool)
    (new_retry_count : Z) : Update :=
  {| u_learning_plan := None; u_retrieved_docs := None; u_quiz := None;
     u_user_answers := None; u_score := None; u_score_details := None;
     u_feedback := Some text;
     u_retry_count := Some new_retry_count;
     u_should_retry := Some should_retry;
     u_current_step := Some "feedback";
     u_error := None; u_error_node := None |}.

(** The [try] block of [feedback_node].  [score_details.get(...)] and
    [learning_plan.get(...)] raise [AttributeError] on [None], and
    [score < 60] raises [TypeError] on [None]. *)
Definition feedback_body (state : StudyFlowState) : M Update :=
  let score := score state in
  let retry_count := retry_count state in
  match score_details state with
  | None => raise AttributeError
  | Some score_details =>
      match learning_plan state with
      | None => raise AttributeError
      | Some learning_plan =>
          let! feedback := call (chat_model env) in
          match score with
          | None => raise TypeError
          | Some score =>
              let should_retry := (score <? 60) && (retry_count <? 3) in
              let new_retry_count :=
                if should_retry then retry_count + 1 else retry_count in
              ret (feedback_update feedback should_retry new_retry_count)
          end
      end
  end.

Definition feedback_node (state : StudyFlowState) : Calls -> Update * Calls :=
  try_return (feedback_body state)
             (error_update "反馈生成失败" "feedback" "feedback_error").

(** The node defined inside [create_study_flow_graph]. *)
Definition human_review_node (state : StudyFlowState) : Calls -> Update * Calls :=
  fun n =>
    ({| u_learning_plan := None; u_retrieved_docs := None; u_quiz := None;
        u_user_answers := None; u_score := None; u_score_details := None;
        u_feedback := None; u_retry_count := None; u_should_retry := None;
        u_current_step := Some "waiting_for_answers";
        u_error := None; u_error_node := None |}, n).

End Nodes.

(** ** [should_continue] *)

Definition should_continue (state : StudyFlowState) : string :=
  let should_retry := should_retry state in
  let retry_count := retry_count state in
  if should_retry && (retry_count <? 3) then "retry" else "end".

(** ** The graph and the engine *)

Inductive Node : Type :=
| Planner | Retrieval | QuizGenerator | HumanReview | Grading | Feedback.

(** The name given to [add_node]. *)
Definition node_name (n : Node) : string :=
  match n with
  | Planner => "planner"
  | Retrieval => "retrieval"
  | QuizGenerator => "quiz_generator"
  | HumanReview => "human_review"
  | Grading => "grading"
  | Feedback => "feedback"
  end.

Inductive Next : Type :=
| Goto (n : Node)
| END.

(** Every key of the state is a last-value channel: a key present in the
    returned dictionary replaces the stored value. *)
Definition put {A} (new : option A) (old : A) : A :=
  match new with Some x => x | None => old end.

Definition put_opt {A} (new : option A) (old : option A) : option A :=
  match new with Some x => Some x | None => old end.

Definition apply_update (s : StudyFlowState) (u : Update) : StudyFlowState :=
  {| user_question := user_question s;
     learning_plan := put_opt (u_learning_plan u) (learning_plan s);
     retrieved_docs := put_opt (u_retrieved_docs u) (retrieved_docs s);
     quiz := put_opt (u_quiz u) (quiz s);
     user_answers := put_opt (u_user_answers u) (user_answers s);
     score := put_opt (u_score u) (score s);
     score_details := put_opt (u_score_details u) (score_details s);
     feedback := put_opt (u_feedback u) (feedback s);
     retry_count := put (u_retry_count u) (retry_count s);
     should_retry := put (u_should_retry u) (should_retry s);
     current_step := put (u_current_step u) (current_step s);
     thread_id := thread_id s;
     error := put_opt (u_error u) (error s);
     error_node := put_opt (u_error_node u) (error_node s) |}.

(** A checkpoint: the state and the node that runs next. *)
Record Snapshot : Type := {
  values : StudyFlowState;
  next : Next
}.

Section Engine.

Variable env : Env.

(** [workflow.add_node] *)
Definition node_fn (n : Node) : StudyFlowState -> Calls -> Update * Calls :=
  match n with
  | Planner => planner_node env
  | Retrieval => retrieval_node env
  | QuizGenerator => quiz_generator_node env
  | HumanReview => human_review_node
  | Grading => grading_node env
  | Feedback => feedback_node env
  end.

(** [workflow.add_edge] and [workflow.add_conditional_edges]: where the
    run goes after node [n] has left the state [s]. *)
Definition edge (n : Node) (s : StudyFlowState) : Next :=
  match n with
  | Planner => Goto Retrieval
  | Retrieval => Goto QuizGenerator
  | QuizGenerator => Goto HumanReview
  | HumanReview => Goto Grading
  | Grading => Goto Feedback
  | Feedback =>
      if String.eqb (should_continue s) "retry" then Goto QuizGenerator
      else END
  end.

(** [interrupt_before=["human_review"]] *)
Definition interrupt_before (n : Node) : bool :=
  match n with HumanReview => true | _ => false end.

(** One node: run it, merge what it returns, follow the edge. *)
Definition step (n : Node) (s : StudyFlowState) (c : Calls) : Snapshot * Calls :=
  let '(u, c') := node_fn n s c in
  let s' := apply_update s u in
  ({| values := s'; next := edge n s' |}, c').

(** The run of one [invoke].  [history] holds the checkpoints written so
    far, the most recent first; [resuming] is set when the run continues a
    thread that stopped at an interrupt, whose node then runs.  The run
    ends at [END] or in front of a node of [interrupt_before]. *)
Fixpoint run (fuel : nat) (resuming : bool) (latest : Snapshot)
    (history : list Snapshot) (c : Calls)
  : option (Snapshot * list Snapshot * Calls) :=
  match fuel with
  | O => None
  | S fuel' =>
      match next latest with
      | END => Some (latest, history, c)
      | Goto n =>
          if interrupt_before n && negb resuming
          then Some (latest, history, c)
          else
            let '(after, c') := step n (values latest) c in
            run fuel' false after (latest :: history) c'
      end
  end.

(** No path of the graph runs more than four nodes without reaching
    [END] or the interrupt. *)
Definition enough_fuel : nat := 6.

Definition initial_state (user_question thread_id : string) : StudyFlowState :=
  {| user_question := user_question;
     learning_plan := None;
     retrieved_docs := None;
     quiz := None;
     user_answers := None;
     score := None;
     score_details := None;
     feedback := None;
     retry_count := 0;
     should_retry := false;
     current_step := "start";
     thread_id := thread_id;
     error := None;
     error_node := None |}.

(** [start_study_flow]: [app.invoke(initial_state, config)] on a fresh
    thread.  The result is the last checkpoint, the older ones and the
    call counter; [values] of the last checkpoint is what [invoke]
    returns. *)
Definition start_study_flow (user_question thread_id : string) (c : Calls)
  : option (Snapshot * list Snapshot * Calls) :=
  run enough_fuel false
      {| values := initial_state user_question thread_id; next := Goto Planner |}
      [] c.

(** The dictionary passed to [app.update_state]. *)
Definition answers_update (answers : gmap string string) : Update :=
  {| u_learning_plan := None; u_retrieved_docs := None; u_quiz := None;
     u_user_answers := Some answers;
     u_score := None; u_score_details := None; u_feedback := None;
     u_retry_count := None; u_should_retry := None;
     u_current_step := None;
     u_error := None; u_error_node := None |}.

(** [submit_answers]: [app.update_state] writes a checkpoint with the
    answers merged in, then [app.invoke(None, config)] resumes. *)
Definition submit_answers (latest : Snapshot) (history : list Snapshot)
    (answers : gmap string string) (c : Calls)
  : option (Snapshot * list Snapshot * Calls) :=
  run enough_fuel true
      {| values := apply_update (values latest) (answers_update answers);
         next := next latest |}
      (latest :: history) c.

End Engine.

(** The number of nodes between a position and the place where a run that
    is not resuming stops. *)
Definition distance (x : Next) : nat :=
  match x with
  | END => 0
  | Goto HumanReview => 0
  | Goto QuizGenerator => 1
  | Goto Retrieval => 2
  | Goto Feedback => 2
  | Goto Planner => 3
  | Goto Grading => 3
  end.

(** A session: the last checkpoint of its thread, the older checkpoints and
    the number of capability calls made so far.  It starts with
    [start_study_flow] and goes on with [submit_answers]. *)
Definition Session : Type := (Snapshot * list Snapshot * Calls)%type.

Inductive reachable (env : Env) : Session -> Prop :=
| reach_start user_question thread_id c r :
    start_study_flow env user_question thread_id c = Some r ->
    reachable env r
| reach_submit latest history c answers r :
    reachable env (latest, history, c) ->
    submit_answers env latest history answers c = Some r ->
    reachable env r.

(** All checkpoints of a session, the most recent first. *)
Definition checkpoints (x : Session) : list Snapshot :=
  let '(latest, history, _) := x in latest :: history.

(** ** Statements about sessions *)

(** [retry_count] stays between 0 and 3. *)
Definition retry_bounded (s : StudyFlowState) : Prop :=
  0 <= retry_count s <= 3.

Definition has_error (cp : Snapshot) : Prop :=
  is_Some (error (values cp)) /\ is_Some (error_node (values cp)).

(** In a list of checkpoints, the most recent first: a checkpoint that
    follows one with an error has an error too. *)
Fixpoint error_sticks (cps : list Snapshot) : Prop :=
  match cps with
  | newer :: rest =>
      match rest with
      | older :: _ => (has_error older -> has_error newer) /\ error_sticks rest
      | [] => True
      end
  | [] => True
  end.

(** A relation that holds between every checkpoint and the one written
    after it; the list has the most recent checkpoint first. *)
Fixpoint chained (R : Snapshot -> Snapshot -> Prop) (cps : list Snapshot) : Prop :=
  match cps with
  | newer :: rest =>
      match rest with
      | older :: _ => R older newer /\ chained R rest
      | [] => True
      end
  | [] => True
  end.

(** [newer] is the checkpoint of the node that was pending at [older]: the
    node has run on the state of [older] as it was, its dictionary has been
    merged, and the run has followed the edge of the node. *)
Definition node_ran (env : Env) (older newer : Snapshot) : Prop :=
  exists n c,
    next older = Goto n
    /\ values newer
       = apply_update (values older) (fst (node_fn env n (values older) c))
    /\ next newer = edge n (values newer).

(** [newer] is the checkpoint [update_state] writes when answers are
    submitted to a thread that is at rest. *)
Definition answers_stored (older newer : Snapshot) : Prop :=
  (next older = Goto HumanReview \/ next older = END)
  /\ exists answers,
       newer = {| values := apply_update (values older) (answers_update answers);
                  next := next older |}.

(** The two ways in which a session goes from one checkpoint to the next. *)
Definition goes_on (env : Env) (older newer : Snapshot) : Prop :=
  node_ran env older newer \/ answers_stored older newer.

(** The reading of the specification under which a run ends at the first
    checkpoint that carries an error: no checkpoint with a successor in the
    run of [start_study_flow] has one. *)
Definition halts_at_first_error (env : Env) : Prop :=
  forall user_question thread_id c latest history c',
    start_study_flow env user_question thread_id c = Some (latest, history, c') ->
    Forall (fun cp => error (values cp) = None) history.

(** ** Sample data *)

Module Sample.

Definition question (id type answer : string) (points : Z) : QuizQuestion :=
  {| q_id := id; q_type := type; q_question := "?"; q_options := None;
     q_answer := answer; q_explanation := ""; q_points := points |}.

Definition plan : LearningPlan :=
  {| topic := "python";
     objectives := ["variables"; "types"; "control flow"];
     key_points := ["int"; "str"; "list"; "if"; "for"];
     difficulty := "beginner";
     estimated_time := 30 |}.

(** Three questions of one point each. *)
Definition quiz3 : Quiz :=
  {| questions := [question "q1" "multiple_choice" "A" 1;
                   question "q2" "fill_blank" "Paris" 1;
                   question "q3" "multiple_choice" "C" 1];
     total_points := 3;
     time_limit := 5 |}.

(** Every capability answers; the index does not exist. *)
Definition env_ok : Env :=
  {| plan_model := fun _ => Ok plan;
     quiz_model := fun _ => Ok quiz3;
     chat_model := fun _ => Ok "ok";
     load_index := fun _ => Raise FileNotFoundError;
     retriever := fun _ _ => Ok [] |}.

(** The chat model fails on the structured request of the planner. *)
Definition env_planner_fails : Env :=
  {| plan_model := fun _ => Raise (CapabilityError "quota exceeded");
     quiz_model := fun _ => Ok quiz3;
     chat_model := fun _ => Ok "ok";
     load_index := fun _ => Raise FileNotFoundError;
     retriever := fun _ _ => Ok [] |}.

Definition state (quiz : option Quiz) (answers : option (gmap string string))
  : StudyFlowState :=
  {| user_question := "python basics";
     learning_plan := Some plan;
     retrieved_docs := Some [];
     quiz := quiz;
     user_answers := answers;
     score := None; score_details := None; feedback := None;
     retry_count := 0; should_retry := false;
     current_step := "waiting_for_answers";
     thread_id := "t1";
     error := None; error_node := None |}.

End Sample.

(** ** Statements about grading *)




(** [earnedPoints]: the points of all graded questions together. *)
Definition sum_points (details : list ScoreDetail) : Z :=
  fold_right Z.add 0 (map points_earned details).

(** The specification's [round(100 * earnedPoints / totalPoints)], with
    Python's [round] (a tie goes to the even neighbour), and 0 for a quiz
    without points. *)
Definition spec_round_score (earned total : Z) : Z :=
  if total =? 0 then 0
  else
    let q := (100 * earned) / total in
    let r := (100 * earned) mod total in
    if 2 * r <? total then q
    else if total <? 2 * r then q + 1
    else if Z.even q then q else q + 1.


(** The percentage computed by [percent_score] for [e] points out of [t] is
    the integer part of the exact percentage, or one below it. *)
Definition percent_close (e t : nat) : bool :=
  match percent_score (Z.of_nat e) (Z.of_nat t) 0%nat with
  | (Ok sc, _) =>
      (100 * Z.of_nat e / Z.of_nat t - 1 <=? sc)
      && (sc <=? 100 * Z.of_nat e / Z.of_nat t)
  | (Raise _, _) => false
  end.

(** The share [int((m / k) * p)] of the keyword fallback is the integer
    part of the exact share. *)
Definition share_exact (m k p : nat) : bool :=
  match
    (let! ratio := py_truediv (Z.of_nat m) (Z.of_nat k) in
     py_int (PrimFloat.mul ratio (PyFloat.of_int (Z.of_nat p)))) 0%nat
  with
  | (Ok pe, _) => pe =? Z.of_nat m * Z.of_nat p / Z.of_nat k
  | (Raise _, _) => false
  end.

(** ** More sample data *)

Module GradingSample.

(** Two of the three one-point questions of [Sample.quiz3] answered
    correctly. *)
Definition two_right : gmap string string :=
  <["q1" := "A"]> (<["q2" := "paris"]> (<["q3" := "B"]> ∅)).

(** A blank in front of the letter. *)
Definition padded : gmap string string := <["q1" := " a"]> ∅.

Definition choice_A : QuizQuestion := Sample.question "q1" "multiple_choice" "A" 10.


Definition other_only : gmap string string := <["q2" := "A"]> ∅.

(** A short-answer question with a reference answer of two words. *)
Definition two_words : QuizQuestion :=
  Sample.question "q4" "short_answer" "alpha beta" 10.



(** The index is there, the retriever fails. *)
Definition env_retriever_down : Env :=
  {| plan_model := fun _ => Ok Sample.plan;
     quiz_model := fun _ => Ok Sample.quiz3;
     chat_model := fun _ => Ok "ok";
     load_index := fun _ => Ok tt;
     retriever := fun _ _ => Raise (CapabilityError "connection refused") |}.

End GradingSample.

(** ** The HTTP layer: [api/routers/workflow.py]

    The two endpoints that drive a session.  A handler either answers with
    its response model or raises [HTTPException]; every handler raises with
    status 500 from its [except Exception] branch, the detail text is not
    represented.  The identifier drawn from [uuid] is an argument. *)

Inductive Http (A : Type) : Type :=
| Http200 (body : A)
| Http500.

Arguments Http200 {A} body.
Arguments Http500 {A}.

(** [StartWorkflowResponse] *)
Record StartWorkflowResponse : Type := {
  start_thread_id : string;
  start_status : string;
  start_current_step : string;
  start_learning_plan : option LearningPlan;
  start_quiz : option Quiz;
  start_message : string
}.

(** [SubmitAnswersResponse] *)
Record SubmitAnswersResponse : Type := {
  submit_thread_id : string;
  submit_status : string;
  submit_score : option Z;
  submit_score_details : option ScoreDetails;
  submit_feedback : option string;
  submit_should_retry : bool;
  submit_message : string
}.

(** [request.thread_id or f"study_{uuid.uuid4().hex[:12]}"] *)
Definition thread_id_or (requested : option string) (generated : string) : string :=
  match requested with
  | Some t => if PyStr.is_empty t then generated else t
  | None => generated
  end.

(** The part of [start_workflow] after the call of [start_study_flow]. *)
Definition start_response (thread_id : string) (result : StudyFlowState)
  : Http StartWorkflowResponse :=
  match error result with
  | Some _ => Http500
  | None =>
      Http200
        {| start_thread_id := thread_id;
           start_status := "waiting_for_answers";
           start_current_step := current_step result;
           start_learning_plan := learning_plan result;
           start_quiz := quiz result;
           start_message := "学习计划和练习题已生成，请提交答案。" |}
  end.

(** The part of [submit_user_answers] after the call of [submit_answers];
    [score >= 60] raises [TypeError] when the state holds no score. *)
Definition submit_response (thread_id : string) (result : StudyFlowState)
  : Http SubmitAnswersResponse :=
  match error result with
  | Some _ => Http500
  | None =>
      let should_retry := should_retry result in
      let respond status message :=
        Http200
          {| submit_thread_id := thread_id;
             submit_status := status;
             submit_score := score result;
             submit_score_details := score_details result;
             submit_feedback := feedback result;
             submit_should_retry := should_retry;
             submit_message := message |} in
      if should_retry
      then respond "retry" "得分未达标，已重新生成练习题，请继续答题。"
      else
        match score result with
        | None => Http500
        | Some score =>
            if 60 <=? score
            then respond "completed" "恭喜通过测验！"
            else respond "failed" "已达到最大重试次数，建议复习后再来挑战。"
        end
  end.

(** [start_workflow]: the response and the session the run leaves in the
    checkpoint store. *)
Definition start_workflow (env : Env) (user_question : string)
    (requested : option string) (generated : string) (c : Calls)
  : Http StartWorkflowResponse * option Session :=
  let thread_id := thread_id_or requested generated in
  match start_study_flow env user_question thread_id c with
  | Some (latest, history, c') =>
      (start_response thread_id (values latest), Some (latest, history, c'))
  | None => (Http500, None)
  end.

(** [submit_user_answers] on the session stored for the thread. *)
Definition submit_user_answers (env : Env) (x : Session)
    (answers : gmap string string)
  : Http SubmitAnswersResponse * option Session :=
  let '(latest, history, c) := x in
  match submit_answers env latest history answers c with
  | Some (latest', history', c') =>
      (submit_response (thread_id (values latest')) (values latest'),
       Some (latest', history', c'))
  | None => (Http500, None)
  end.

(** ** More statements about sessions *)

(** What links the counter, the decision of feedback and the position in the
    graph: the counter is at most 2 wherever a node is still to run, and a
    state without error, without retry and with a score below 60 is only
    seen between grading and feedback. *)
Definition cycle_inv (cp : Snapshot) : Prop :=
  0 <= retry_count (values cp) <= 3
  /\ (next cp <> END -> retry_count (values cp) <= 2)
  /\ (is_Some (error (values cp))
      \/ should_retry (values cp) = true
      \/ score (values cp) = None
      \/ (exists sc, score (values cp) = Some sc /\ 60 <= sc)
      \/ next cp = Goto Feedback).

(** From one checkpoint to the next: the question and the thread never
    change, and only the planner writes the learning plan. *)
Definition plan_kept (older newer : Snapshot) : Prop :=
  user_question (values newer) = user_question (values older)
  /\ thread_id (values newer) = thread_id (values older)
  /\ next newer <> Goto Planner
  /\ (next older <> Goto Planner ->
      learning_plan (values newer) = learning_plan (values older)).

(** ** More statements about grading *)

(** The points the questions of a quiz carry together. *)
Definition sum_question_points (qs : list QuizQuestion) : Z :=
  fold_right Z.add 0 (map q_points qs).

Definition is_short_answer (q : QuizQuestion) : bool :=
  String.eqb (q_type q) "short_answer".

(** The number of questions that are sent to the chat model. *)
Definition count_short_answer (qs : list QuizQuestion) : nat :=
  List.length (List.filter is_short_answer qs).


(** [percent_score] is not negative. *)
Definition percent_not_negative (e t : nat) : bool :=
  match percent_score (Z.of_nat e) (Z.of_nat t) 0%nat with
  | (Ok sc, _) => 0 <=? sc
  | (Raise _, _) => false
  end.


(** A quiz with one multiple_choice and two short_answer questions, answers
    to the three of them, and a chat model that grades with a score line. *)
Definition quiz_with_essays : Quiz :=
  {| questions := [GradingSample.choice_A;
                   GradingSample.two_words;
                   Sample.question "q5" "short_answer" "a list keeps order" 10];
     total_points := 30;
     time_limit := 15 |}.

Definition essay_answers : gmap string string :=
  <["q1" := "A"]> (<["q4" := "Alpha and beta"]> (<["q5" := "order is kept"]> ∅)).

Definition env_grader : Env :=
  {| plan_model := fun _ => Ok Sample.plan;
     quiz_model := fun _ => Ok quiz_with_essays;
     chat_model := fun _ => Ok "score: 8";
     load_index := fun _ => Raise FileNotFoundError;
     retriever := fun _ _ => Ok [] |}.

(** ** Statements about retrieval *)

(** Every element is at most the one before it. *)
Fixpoint descending (l : list float) : bool :=
  match l with
  | x :: rest =>
      match rest with
      | y :: _ => PrimFloat.leb y x && descending rest
      | [] => true
      end
  | [] => true
  end.

(** The scores of [n] hits of the main query followed by [m] hits of the
    supplementary queries. *)
Definition relevance_profile (n m : nat) : list float :=
  (map rank_score (seq 0 n) ++ repeat 0x1.6666666666666p-1%float m)%list.

(** An index with one document on the topic; the key points bring two more
    texts, one of them the document already found. *)
Definition env_one_hit : Env :=
  {| plan_model := fun _ => Ok Sample.plan;
     quiz_model := fun _ => Ok Sample.quiz3;
     chat_model := fun _ => Ok "ok";
     load_index := fun _ => Ok tt;
     retriever := fun _ query =>
       if String.eqb query "python"
       then Ok [ {| page_content := "Python is a language."; doc_metadata := [] |} ]
       else Ok [ {| page_content := "Python is a language."; doc_metadata := [] |};
                 {| page_content := "int is a type."; doc_metadata := [] |} ] |}.

(** * Properties *)

(** ** What a node can return *)

Lemma try_return_cases {A} (m : M A) (h : exn -> A) (c : Calls) (a : A) (c' : Calls) :
  try_return m h c = (a, c') ->
  m c = (Ok a, c') \/ exists e, m c = (Raise e, c') /\ a = h e.
Proof.
  unfold try_return. destruct (m c) as [[x | e] n]; intros H; inversion H; subst.
  - now left.
  - right. now exists e.
Qed.

Lemma bind_ok {A B} (m : M A) (k : A -> M B) (c c' : Calls) (b : B) :
  bind m k c = (Ok b, c') ->
  exists a c1, m c = (Ok a, c1) /\ k a c1 = (Ok b, c').
Proof.
  unfold bind. destruct (m c) as [[a | e] c1]; intros H.
  - now exists a, c1.
  - discriminate.
Qed.

Section NodeShapes.

Variable env : Env.

Lemma planner_node_shape s c u c' :
  planner_node env s c = (u, c') ->
  (exists plan, u = planner_update plan)
  \/ (exists e, u = error_update "学习计划生成失败" "planner" "planner_error" e).
Proof.
  unfold planner_node. intros H.
  apply try_return_cases in H as [H | (e & _ & ->)]; [left | right; now exists e].
  apply bind_ok in H as (plan & c1 & _ & H). inversion H. now exists plan.
Qed.

Lemma retrieval_body_shape s c u c' :
  retrieval_body env s c = (Ok u, c') -> exists docs, u = retrieval_update docs.
Proof.
  unfold retrieval_body. destruct (learning_plan s) as [plan |]; [| discriminate].
  intros H. apply bind_ok in H as (docs & c1 & _ & H).
  destruct (_ && _ && _) in H.
  - destruct (supplement _ _ _ _) as [more c2]. inversion H. now eexists.
  - inversion H. now eexists.
Qed.

Lemma retrieval_node_shape s c u c' :
  retrieval_node env s c = (u, c') -> exists docs, u = retrieval_update docs.
Proof.
  unfold retrieval_node. intros H.
  apply try_return_cases in H as [H | (e & _ & ->)].
  - eapply retrieval_body_shape; eauto.
  - now exists [].
Qed.

Lemma quiz_generator_node_shape s c u c' :
  quiz_generator_node env s c = (u, c') ->
  (exists quiz, u = quiz_update quiz)
  \/ (exists e, u = error_update "练习题生成失败" "quiz_generator" "quiz_error" e).
Proof.
  unfold quiz_generator_node. intros H.
  apply try_return_cases in H as [H | (e & _ & ->)]; [left | right; now exists e].
  unfold quiz_generator_body in H.
  destruct (learning_plan s); [| discriminate].
  apply bind_ok in H as (quiz & c1 & _ & H). inversion H. now exists quiz.
Qed.

Lemma grading_body_shape s c u c' :
  grading_body env s c = (Ok u, c') ->
  exists score details, u = grading_update score details.
Proof.
  unfold grading_body.
  destruct (quiz s) as [quiz |]; [| discriminate].
  destruct (user_answers s) as [answers |]; [| discriminate].
  destruct (bool_decide _); [discriminate |].
  intros H. apply bind_ok in H as ([[details earned] correct] & c1 & _ & H).
  apply bind_ok in H as (score & c2 & _ & H).
  inversion H. now eexists _, _.
Qed.

Lemma grading_node_shape s c u c' :
  grading_node env s c = (u, c') ->
  (exists score details, u = grading_update score details)
  \/ (exists e, u = error_update "评分失败" "grading" "grading_error" e).
Proof.
  unfold grading_node. intros H.
  apply try_return_cases in H as [H | (e & _ & ->)]; [left | right; now exists e].
  eapply grading_body_shape; eauto.
Qed.

Lemma feedback_node_shape s c u c' :
  feedback_node env s c = (u, c') ->
  (exists text sc,
      score s = Some sc
      /\ u = feedback_update text
               ((sc <? 60) && (retry_count s <? 3))
               (if (sc <? 60) && (retry_count s <? 3)
                then retry_count s + 1 else retry_count s))
  \/ (exists e, u = error_update "反馈生成失败" "feedback" "feedback_error" e).
Proof.
  unfold feedback_node. intros H.
  apply try_return_cases in H as [H | (e & _ & ->)]; [left | right; now exists e].
  unfold feedback_body in H.
  destruct (score_details s); [| discriminate].
  destruct (learning_plan s); [| discriminate].
  apply bind_ok in H as (text & c1 & _ & H).
  destruct (score s) as [sc |] eqn:Hsc; [| discriminate].
  inversion H. now exists text, sc.
Qed.

End NodeShapes.

(** ** The engine *)

Section EngineFacts.

Variable env : Env.

(** A property of the state that every node preserves holds at every
    checkpoint a run writes. *)
Lemma run_preserves (P : StudyFlowState -> Prop) :
  (forall n s c, P s -> P (values (fst (step env n s c)))) ->
  forall fuel resuming latest history c l h c',
    run env fuel resuming latest history c = Some (l, h, c') ->
    P (values latest) ->
    Forall (fun x => P (values x)) history ->
    P (values l) /\ Forall (fun x => P (values x)) h.
Proof.
  intros Hstep. induction fuel as [| fuel IH]; intros resuming latest history c l h c' Hrun Hl Hh.
  - discriminate.
  - simpl in Hrun. destruct (next latest) as [n |].
    + destruct (interrupt_before n && negb resuming).
      * inversion Hrun; subst. auto.
      * specialize (Hstep n (values latest) c Hl).
        destruct (step env n (values latest) c) as [after c1].
        eapply IH; eauto.
    + inversion Hrun; subst. auto.
Qed.

Lemma edge_distance n s :
  interrupt_before n = false ->
  (distance (edge n s) < distance (Goto n))%nat.
Proof.
  destruct n; simpl; try discriminate; try lia.
  destruct (String.eqb _ _); simpl; lia.
Qed.

Lemma run_stops fuel latest history c :
  (distance (next latest) < fuel)%nat ->
  is_Some (run env fuel false latest history c).
Proof.
  revert latest history c.
  induction fuel as [| fuel IH]; intros latest history c Hlt; [lia |].
  simpl. destruct (next latest) as [n |] eqn:Hn; [| eauto].
  rewrite andb_true_r.
  destruct (interrupt_before n) eqn:Hi; [eauto |].
  unfold step. destruct (node_fn env n (values latest) c) as [u c1].
  apply IH. simpl.
  pose proof (edge_distance n (apply_update (values latest) u) Hi). lia.
Qed.

Lemma run_unfold fuel resuming latest history c :
  run env (S fuel) resuming latest history c
  = match next latest with
    | END => Some (latest, history, c)
    | Goto n =>
        if interrupt_before n && negb resuming
        then Some (latest, history, c)
        else
          let '(after, c') := step env n (values latest) c in
          run env fuel false after (latest :: history) c'
    end.
Proof. reflexivity. Qed.

(** Every [invoke] returns: the fuel of [start_study_flow] and
    [submit_answers] is never used up. *)
Lemma run_terminates resuming latest history c :
  is_Some (run env enough_fuel resuming latest history c).
Proof.
  destruct resuming; [| apply run_stops; unfold enough_fuel;
                         destruct (next latest) as [[] |]; simpl; lia].
  unfold enough_fuel. rewrite run_unfold.
  destruct (next latest) as [n |] eqn:Hn; [| eauto].
  rewrite andb_false_r.
  unfold step. destruct (node_fn env n (values latest) c) as [u c1].
  apply run_stops. cbn [next].
  destruct n; cbn [edge distance]; try lia.
  destruct (String.eqb _ _); cbn [distance]; lia.
Qed.

(** The run of [start_study_flow], written out. *)
Lemma start_study_flow_unfold user_question thread_id c :
  let s0 := {| values := initial_state user_question thread_id;
               next := Goto Planner |} in
  let r1 := step env Planner (values s0) c in
  let r2 := step env Retrieval (values (fst r1)) (snd r1) in
  let r3 := step env QuizGenerator (values (fst r2)) (snd r2) in
  start_study_flow env user_question thread_id c
  = Some (fst r3, [fst r2; fst r1; s0], snd r3)
  /\ next (fst r1) = Goto Retrieval
  /\ next (fst r2) = Goto QuizGenerator
  /\ next (fst r3) = Goto HumanReview.
Proof.
  intros s0 r1 r2 r3.
  assert (E1 : next (fst r1) = Goto Retrieval)
    by (subst r1; unfold step; now destruct (node_fn _ _ _ _)).
  assert (E2 : next (fst r2) = Goto QuizGenerator)
    by (subst r2; unfold step; now destruct (node_fn _ _ _ _)).
  assert (E3 : next (fst r3) = Goto HumanReview)
    by (subst r3; unfold step; now destruct (node_fn _ _ _ _)).
  split; [| auto].
  assert (R1 : step env Planner (values s0) c = r1) by reflexivity.
  assert (R2 : step env Retrieval (values (fst r1)) (snd r1) = r2) by reflexivity.
  assert (R3 : step env QuizGenerator (values (fst r2)) (snd r2) = r3) by reflexivity.
  clearbody r3 r2 r1.
  destruct r1 as [a1 c1], r2 as [a2 c2], r3 as [a3 c3]. cbn [fst snd] in *.
  unfold start_study_flow, enough_fuel. fold s0.
  rewrite run_unfold. change (next s0) with (Goto Planner).
  cbn [interrupt_before andb negb]. rewrite R1.
  rewrite run_unfold, E1. cbn [interrupt_before andb negb]. rewrite R2.
  rewrite run_unfold, E2. cbn [interrupt_before andb negb]. rewrite R3.
  rewrite run_unfold, E3. reflexivity.
Qed.

End EngineFacts.

Lemma run_chained env (R : Snapshot -> Snapshot -> Prop) :
  (forall cp n c, next cp = Goto n -> R cp (fst (step env n (values cp) c))) ->
  forall fuel resuming latest history c l h c',
    run env fuel resuming latest history c = Some (l, h, c') ->
    chained R (latest :: history) ->
    chained R (l :: h).
Proof.
  intros Hstep. induction fuel as [| fuel IH];
    intros resuming latest history c l h c' Hrun Hc; [discriminate |].
  rewrite run_unfold in Hrun. destruct (next latest) as [n |] eqn:Hn.
  - destruct (interrupt_before n && negb resuming).
    + inversion Hrun; subst. exact Hc.
    + specialize (Hstep latest n c Hn).
      destruct (step env n (values latest) c) as [after c1].
      eapply IH; [exact Hrun |]. cbn [chained]. auto.
  - inversion Hrun; subst. exact Hc.
Qed.

(** A run ends at [END] or in front of human_review, nowhere else. *)
Lemma run_final env fuel :
  forall resuming latest history c l h c',
    run env fuel resuming latest history c = Some (l, h, c') ->
    next l = END \/ next l = Goto HumanReview.
Proof.
  induction fuel as [| fuel IH]; intros resuming latest history c l h c' Hrun;
    [discriminate |].
  rewrite run_unfold in Hrun. destruct (next latest) as [n |] eqn:Hn.
  - destruct (interrupt_before n && negb resuming) eqn:Hi.
    + inversion Hrun; subst. right. rewrite Hn.
      apply andb_true_iff in Hi as [Hi _]. now destruct n.
    + destruct (step env n (values latest) c) as [after c1]. eapply IH; eauto.
  - inversion Hrun; subst. now left.
Qed.

Lemma reachable_rests env x :
  reachable env x ->
  next (fst (fst x)) = Goto HumanReview \/ next (fst (fst x)) = END.
Proof.
  intros Hx.
  destruct Hx as [q tid c [[l h] c'] Hrun | latest history c answers [[l h] c'] _ Hrun];
    cbn [fst].
  - unfold start_study_flow in Hrun. apply run_final in Hrun. tauto.
  - unfold submit_answers in Hrun. apply run_final in Hrun. tauto.
Qed.

Lemma step_node_ran env cp n c :
  next cp = Goto n -> node_ran env cp (fst (step env n (values cp) c)).
Proof.
  intros Hn. exists n, c. unfold step.
  destruct (node_fn env n (values cp) c) as [u c1]. cbn. auto.
Qed.

(** Every checkpoint of a session but the first is the checkpoint of a node
    that has run or of answers that were stored. *)
Lemma reachable_goes_on env x :
  reachable env x -> chained (goes_on env) (checkpoints x).
Proof.
  induction 1 as [q tid c [[l h] c'] Hrun
                 | latest history c answers [[l h] c'] Hprev IH Hrun].
  - unfold start_study_flow in Hrun.
    eapply (run_chained env (goes_on env)); [| exact Hrun | exact I].
    intros cp n k Hn. left. now apply step_node_ran.
  - unfold submit_answers in Hrun. cbn [checkpoints] in IH.
    eapply (run_chained env (goes_on env)); [| exact Hrun |].
    + intros cp n k Hn. left. now apply step_node_ran.
    + split; [| exact IH]. right.
      split; [exact (reachable_rests env _ Hprev) |].
      exists answers. reflexivity.
Qed.

(** In a chained list every element is the head or has the element written
    after it in front of it. *)
Lemma chained_successor (R : Snapshot -> Snapshot -> Prop) cps older :
  chained R cps -> In older cps ->
  (exists rest, cps = older :: rest)
  \/ exists before newer after,
       cps = (before ++ newer :: older :: after)%list /\ R older newer.
Proof.
  induction cps as [| a cps IH]; intros Hc Hin; [destruct Hin |].
  destruct Hin as [-> | Hin]; [left; eauto |].
  right. destruct cps as [| b cps]; [destruct Hin |].
  destruct Hc as [Hab Hc].
  destruct (IH Hc Hin) as [[rest Hrest] | (before & newer & after & Heq & HR)].
  - inversion Hrest; subst. exists [], a, rest. split; [reflexivity | exact Hab].
  - exists (a :: before), newer, after. rewrite Heq. split; [reflexivity | exact HR].
Qed.

(** ** C2: the routing function *)

(** C2.  [should_continue] is a function of the state alone (it takes no
    environment and no call counter, and reads only [should_retry] and
    [retry_count]); it answers "retry" exactly when [should_retry] is set and
    [retry_count] is below 3, and "end" in every other case. *)
Theorem should_continue_rule :
  forall s : StudyFlowState,
    (should_continue s = "retry" <-> should_retry s = true /\ retry_count s < 3)
    /\ (should_continue s = "end" <-> ~ (should_retry s = true /\ retry_count s < 3))
    /\ (forall s' : StudyFlowState,
           should_retry s' = should_retry s ->
           retry_count s' = retry_count s ->
           should_continue s' = should_continue s).
Proof.
  intros s. unfold should_continue.
  destruct (should_retry s) eqn:Hr; destruct (retry_count s <? 3) eqn:Hc; cbn [andb];
    [apply Z.ltb_lt in Hc | apply Z.ltb_ge in Hc | apply Z.ltb_lt in Hc | apply Z.ltb_ge in Hc].
  all: repeat split; try discriminate; try tauto; try lia.
  all: try (intros [H1 H2]; first [discriminate | lia]).
  all: try (intros H; exfalso; apply H; split; [reflexivity | lia]).
  all: intros s' -> ->; rewrite ?Hr; cbn [andb];
    try (apply Z.ltb_lt in Hc; now rewrite Hc);
    try (apply Z.ltb_ge in Hc; now rewrite Hc); reflexivity.
Qed.

(** ** C1: where [start_study_flow] stops *)

Lemma quiz_generator_step_marker env s c :
  let s' := values (fst (step env QuizGenerator s c)) in
  current_step s' = "quiz_generated" \/ current_step s' = "quiz_error".
Proof.
  unfold step. destruct (node_fn env QuizGenerator s c) as [u c1] eqn:Hu.
  cbn [node_fn] in Hu.
  apply quiz_generator_node_shape in Hu as [[quiz ->] | [e ->]]; cbn; auto.
Qed.

(** C1.  For every question, thread and environment [start_study_flow]
    returns; it has run planner, retrieval and quiz_generator in this order
    (the checkpoints, oldest first, are followed by these nodes and then by
    human_review, which has not run).  The state it returns carries the
    marker left by quiz_generator, "quiz_generated" or "quiz_error", and not
    "waiting_for_answers": that marker is written by human_review, which only
    runs once the answers have been submitted. *)
Theorem start_study_flow_stops_before_human_review :
  forall (env : Env) (user_question thread_id : string) (c : Calls),
  exists latest history c',
    start_study_flow env user_question thread_id c = Some (latest, history, c')
    /\ map next (rev (latest :: history))
       = [Goto Planner; Goto Retrieval; Goto QuizGenerator; Goto HumanReview]
    /\ (current_step (values latest) = "quiz_generated"
        \/ current_step (values latest) = "quiz_error")
    /\ current_step (values latest) <> "waiting_for_answers".
Proof.
  intros env q tid c.
  destruct (start_study_flow_unfold env q tid c) as (Hrun & E1 & E2 & E3).
  cbv zeta in Hrun, E1, E2, E3.
  eexists _, _, _. split; [exact Hrun |].
  split; [cbn [rev app map]; now rewrite E1, E2, E3 |].
  match goal with
  | |- context [values (fst (step env QuizGenerator ?s ?k))] =>
      pose proof (quiz_generator_step_marker env s k) as Hm
  end.
  cbv zeta in Hm. split; [exact Hm |].
  destruct Hm as [-> | ->]; discriminate.
Qed.

(** ** C3: the retry counter *)

Lemma step_retry_bounded env n s c :
  retry_bounded s -> retry_bounded (values (fst (step env n s c))).
Proof.
  unfold retry_bounded, step. intros Hs.
  destruct (node_fn env n s c) as [u c1] eqn:Hu. cbn [fst values].
  destruct n; cbn [node_fn] in Hu.
  - apply planner_node_shape in Hu as [[x ->] | [e ->]]; exact Hs.
  - apply retrieval_node_shape in Hu as [x ->]; exact Hs.
  - apply quiz_generator_node_shape in Hu as [[x ->] | [e ->]]; exact Hs.
  - inversion Hu; subst. exact Hs.
  - apply grading_node_shape in Hu as [(x & y & ->) | [e ->]]; exact Hs.
  - apply feedback_node_shape in Hu as [(t & sc & _ & ->) | [e ->]]; [| exact Hs].
    cbn. destruct (sc <? 60); cbn [andb]; [| lia].
    destruct (retry_count s <? 3) eqn:Hc; [apply Z.ltb_lt in Hc |]; lia.
Qed.

Lemma reachable_retry_bounded env x :
  reachable env x ->
  Forall (fun cp => retry_bounded (values cp)) (checkpoints x).
Proof.
  induction 1 as [q tid c [[l h] c'] Hrun | latest history c answers [[l h] c'] _ IH Hrun].
  - unfold start_study_flow in Hrun.
    pose proof (run_preserves env retry_bounded (step_retry_bounded env)
                  _ _ _ _ _ _ _ _ Hrun) as Hp.
    destruct Hp as [Hl Hh]; [unfold retry_bounded; cbn; lia | constructor |].
    now apply Forall_cons.
  - unfold submit_answers in Hrun. cbn [checkpoints] in IH.
    pose proof (run_preserves env retry_bounded (step_retry_bounded env)
                  _ _ _ _ _ _ _ _ Hrun) as Hp.
    destruct Hp as [Hl Hh]; [apply Forall_inv in IH; exact IH | exact IH |].
    now apply Forall_cons.
Qed.

(** C3.  In every session, at every checkpoint, [retry_count] lies between
    0 and 3.  The routing function answers "end" whenever [retry_count] has
    reached 3.  [feedback_node] adds one to [retry_count] exactly when the
    dictionary it returns sets [should_retry] to [True]; in every other case
    it leaves the counter as it was. *)
Theorem retry_count_never_exceeds_three :
  forall (env : Env) (x : Session),
    reachable env x ->
    Forall (fun cp => 0 <= retry_count (values cp) <= 3) (checkpoints x)
    /\ (forall s, 3 <= retry_count s -> should_continue s = "end")
    /\ (forall s c,
           let u := fst (feedback_node env s c) in
           (u_should_retry u = Some true
            /\ retry_count (apply_update s u) = retry_count s + 1)
           \/ (u_should_retry u <> Some true
               /\ retry_count (apply_update s u) = retry_count s)).
Proof.
  intros env x Hx. split; [exact (reachable_retry_bounded env x Hx) |]. split.
  - intros s Hs. unfold should_continue.
    destruct (retry_count s <? 3) eqn:Hc; [apply Z.ltb_lt in Hc; lia |].
    now rewrite andb_false_r.
  - intros s c. cbv zeta.
    destruct (feedback_node env s c) as [u c1] eqn:Hu. cbn [fst].
    apply feedback_node_shape in Hu as [(t & sc & _ & ->) | [e ->]].
    + cbn. destruct ((sc <? 60) && (retry_count s <? 3)); [left | right]; split;
        try reflexivity; discriminate.
    + right. split; [discriminate | reflexivity].
Qed.


Lemma retry_count_never_exceeds_three_witness :
  exists paused resumed,
    start_study_flow Sample.env_ok "python basics" "t1" 0%nat = Some paused
    /\ submit_answers Sample.env_ok (fst (fst paused)) (snd (fst paused))
         (<["q1" := "B"]> ∅) (snd paused) = Some resumed
    /\ reachable Sample.env_ok resumed
    /\ Forall (fun cp => 0 <= retry_count (values cp) <= 3) (checkpoints resumed)
    /\ retry_count (values (fst (fst resumed))) = 1.
Proof.
  destruct (start_study_flow Sample.env_ok "python basics" "t1" 0%nat)
    as [[[l h] c] |] eqn:Hp; [| vm_compute in Hp; discriminate Hp].
  destruct (submit_answers Sample.env_ok l h (<["q1" := "B"]> ∅) c)
    as [resumed |] eqn:Hr.
  - exists (l, h, c), resumed.
    assert (Hx : reachable Sample.env_ok resumed)
      by (eapply reach_submit; [eapply reach_start; exact Hp | exact Hr]).
    repeat split; try assumption.
    + exact (proj1 (retry_count_never_exceeds_three _ _ Hx)).
    + vm_compute in Hp. inversion Hp; subst l h c.
      vm_compute in Hr. inversion Hr; subst resumed. reflexivity.
  - exfalso. vm_compute in Hp. inversion Hp; subst l h c.
    vm_compute in Hr. discriminate Hr.
Defined.

(** ** C4: what the engine does after a node has stored an error *)

Lemma step_keeps_error env n s c :
  is_Some (error s) /\ is_Some (error_node s) ->
  let s' := values (fst (step env n s c)) in
  is_Some (error s') /\ is_Some (error_node s').
Proof.
  unfold step. intros Hs.
  destruct (node_fn env n s c) as [u c1] eqn:Hu. cbn [fst values].
  destruct n; cbn [node_fn] in Hu.
  - apply planner_node_shape in Hu as [[x ->] | [e ->]]; cbn; eauto.
  - apply retrieval_node_shape in Hu as [x ->]; exact Hs.
  - apply quiz_generator_node_shape in Hu as [[x ->] | [e ->]]; cbn; eauto.
  - inversion Hu; subst. exact Hs.
  - apply grading_node_shape in Hu as [(x & y & ->) | [e ->]]; cbn; eauto.
  - apply feedback_node_shape in Hu as [(t & sc & _ & ->) | [e ->]]; cbn; eauto.
Qed.

Lemma run_error_sticks env fuel :
  forall resuming latest history c l h c',
    run env fuel resuming latest history c = Some (l, h, c') ->
    error_sticks (latest :: history) ->
    error_sticks (l :: h).
Proof.
  induction fuel as [| fuel IH]; intros resuming latest history c l h c' Hrun Hs.
  - discriminate.
  - rewrite run_unfold in Hrun. destruct (next latest) as [n |].
    + destruct (interrupt_before n && negb resuming).
      * inversion Hrun; subst. exact Hs.
      * pose proof (step_keeps_error env n (values latest) c) as Hk.
        destruct (step env n (values latest) c) as [after c1].
        eapply IH; [exact Hrun |].
        cbn [error_sticks]. split; [| exact Hs].
        unfold has_error. exact Hk.
    + inversion Hrun; subst. exact Hs.
Qed.

Lemma reachable_error_sticks env x :
  reachable env x -> error_sticks (checkpoints x).
Proof.
  induction 1 as [q tid c [[l h] c'] Hrun
                 | latest history c answers [[l h] c'] _ IH Hrun].
  - unfold start_study_flow in Hrun.
    eapply run_error_sticks; [exact Hrun | exact I].
  - unfold submit_answers in Hrun.
    eapply run_error_sticks; [exact Hrun |].
    cbn [error_sticks checkpoints] in *. split; [| exact IH].
    unfold has_error. cbn.
    destruct (error (values latest)), (error_node (values latest)); tauto.
Qed.

(** C4, as the code has it.  A node that has stored an error does not stop
    the run.  The graph has no edge that looks at [error]: where the run goes
    after a node depends on [should_retry] and [retry_count] alone.  In every
    session each checkpoint but the first is the checkpoint of the node that
    was pending at the checkpoint before it (run on the state as it was, an
    error included, and followed by the edge of that node) or of submitted
    answers; the session rests in front of human_review or at [END] and
    nowhere else; so every checkpoint that carries an error while a node
    other than human_review is pending is followed by the checkpoint of that
    node.  What does hold for errors is that they are never cleared: a
    checkpoint written after one that carries [error] and [error_node]
    carries both as well, up to the state handed back to the caller. *)
Theorem error_never_cleared :
  forall (env : Env) (x : Session),
    reachable env x ->
    error_sticks (checkpoints x)
    /\ (forall n s s',
           should_retry s' = should_retry s ->
           retry_count s' = retry_count s ->
           edge n s' = edge n s)
    /\ chained (goes_on env) (checkpoints x)
    /\ (next (fst (fst x)) = Goto HumanReview \/ next (fst (fst x)) = END)
    /\ (forall older n,
           In older (checkpoints x) ->
           has_error older ->
           next older = Goto n ->
           n <> HumanReview ->
           exists before newer after,
             checkpoints x = (before ++ newer :: older :: after)%list
             /\ node_ran env older newer).
Proof.
  intros env x Hx.
  assert (Hchain : chained (goes_on env) (checkpoints x))
    by exact (reachable_goes_on env x Hx).
  assert (Hrest : next (fst (fst x)) = Goto HumanReview \/ next (fst (fst x)) = END)
    by exact (reachable_rests env x Hx).
  split; [exact (reachable_error_sticks env x Hx) |].
  split; [| split; [exact Hchain | split; [exact Hrest |]]].
  - intros n s s' Hr Hc. destruct n; try reflexivity.
    unfold edge, should_continue. now rewrite Hr, Hc.
  - intros older n Hin _ Hn Hnot.
    destruct (chained_successor _ _ _ Hchain Hin)
      as [[rest Hhead] | (before & newer & after & Heq & [Hran | Hstored])].
    + exfalso. destruct x as [[l h] c]. cbn [checkpoints fst] in *.
      inversion Hhead; subst l.
      destruct Hrest as [Hr | Hr]; rewrite Hr in Hn; [| discriminate Hn].
      inversion Hn. congruence.
    + exists before, newer, after. auto.
    + exfalso. destruct Hstored as [[Hr | Hr] _]; rewrite Hr in Hn;
        [inversion Hn; congruence | discriminate Hn].
Qed.

Lemma error_never_cleared_witness :
  let env := Sample.env_planner_fails in
  let failed := fst (step env Planner (initial_state "python basics" "t1") 0%nat) in
  exists x,
    start_study_flow env "python basics" "t1" 0%nat = Some x
    /\ reachable env x
    /\ error_sticks (checkpoints x)
    /\ chained (goes_on env) (checkpoints x)
    /\ next (fst (fst x)) = Goto HumanReview
    /\ has_error failed
    /\ next failed = Goto Retrieval
    /\ exists before newer after,
         checkpoints x = (before ++ newer :: failed :: after)%list
         /\ node_ran env failed newer.
Proof.
  cbv zeta.
  destruct (start_study_flow Sample.env_planner_fails "python basics" "t1" 0%nat)
    as [x |] eqn:Hp; [| vm_compute in Hp; discriminate Hp].
  exists x.
  assert (Hx : reachable Sample.env_planner_fails x)
    by (eapply reach_start; exact Hp).
  destruct (error_never_cleared _ _ Hx) as (H1 & _ & H3 & H4 & H5).
  assert (Hrest : next (fst (fst x)) = Goto HumanReview).
  { destruct (start_study_flow_unfold Sample.env_planner_fails "python basics" "t1" 0%nat)
      as (Hrun & _ & _ & Hn).
    rewrite Hp in Hrun. inversion Hrun; subst x. exact Hn. }
  assert (Hfailed : has_error
                      (fst (step Sample.env_planner_fails Planner
                              (initial_state "python basics" "t1") 0%nat)))
    by (split; eexists; reflexivity).
  assert (Hin : In (fst (step Sample.env_planner_fails Planner
                           (initial_state "python basics" "t1") 0%nat))
                   (checkpoints x)).
  { destruct (start_study_flow_unfold Sample.env_planner_fails "python basics" "t1" 0%nat)
      as (Hrun & _).
    rewrite Hp in Hrun. inversion Hrun; subst x.
    cbn [checkpoints]. right. right. left. reflexivity. }
  split; [reflexivity |]. split; [exact Hx |]. split; [exact H1 |].
  split; [exact H3 |]. split; [exact Hrest |]. split; [exact Hfailed |].
  split; [reflexivity |].
  apply (H5 _ Retrieval Hin Hfailed eq_refl). discriminate.
Defined.

(** The planner fails; retrieval and quiz_generator run all the same. *)
Lemma planner_failure_does_not_halt :
  exists latest history c',
    start_study_flow Sample.env_planner_fails "python basics" "t1" 0%nat
    = Some (latest, history, c')
    /\ map (fun cp => current_step (values cp)) (rev (latest :: history))
       = ["start"; "planner_error"; "retrieval"; "quiz_error"]
    /\ map (fun cp => error_node (values cp)) (rev (latest :: history))
       = [None; Some "planner"; Some "planner"; Some "quiz_generator"]
    /\ ~ halts_at_first_error Sample.env_planner_fails.
Proof.
  eexists _, _, _. split; [vm_compute; reflexivity |].
  split; [reflexivity |]. split; [reflexivity |].
  intros Hhalt.
  specialize (Hhalt "python basics" "t1" 0%nat _ _ _ eq_refl).
  apply Forall_inv in Hhalt. discriminate Hhalt.
Qed.

(** ** Strings *)







(** ** Computations that make no call *)

Lemma percent_score_calls e t c :
  percent_score e t c = (fst (percent_score e t 0%nat), c).
Proof.
  unfold percent_score, bind, py_truediv, py_int, ret, raise.
  destruct (0 <? t); [| reflexivity].
  destruct (t =? 0); [reflexivity |].
  destruct (PyFloat.truncate _); reflexivity.
Qed.

Lemma parse_reply_calls text p c :
  parse_reply text p c = (fst (parse_reply text p 0%nat), c).
Proof.
  unfold parse_reply, bind, py_first, py_second, py_int_of_digits, ret, raise.
  destruct (List.filter _ _) as [| score_line ?]; [reflexivity |].
  destruct (PyStr.is_empty _); [reflexivity |].
  destruct (List.filter _ _) as [| fl ?]; [reflexivity |].
  destruct (PyStr.split_once _ _) as [| ? [| ? ?]]; reflexivity.
Qed.

(** ** C8: grading without a quiz or without answers *)

(** C8.  When [quiz] or [user_answers] is absent (or [user_answers] is the
    empty dictionary) [grading_node] raises nothing to the engine: it returns
    the dictionary of its [except] branch, with [error] set, [error_node]
    "grading" and [current_step] "grading_error".  The dictionary has no
    [score] and no [score_details], so the state keeps the score it had, and
    no capability is called. *)
Theorem grading_needs_quiz_and_answers :
  forall (env : Env) (s : StudyFlowState) (c : Calls),
    quiz s = None \/ user_answers s = None \/ user_answers s = Some ∅ ->
    let u := fst (grading_node env s c) in
    grading_node env s c
    = (error_update "评分失败" "grading" "grading_error"
         (ValueError "练习题或用户答案不存在，无法评分"), c)
    /\ is_Some (u_error u)
    /\ u_error_node u = Some "grading"
    /\ u_current_step u = Some "grading_error"
    /\ u_score u = None
    /\ u_score_details u = None
    /\ score (apply_update s u) = score s.
Proof.
  intros env s c H.
  assert (E : grading_node env s c
              = (error_update "评分失败" "grading" "grading_error"
                   (ValueError "练习题或用户答案不存在，无法评分"), c)).
  { unfold grading_node, try_return, grading_body.
    destruct H as [-> | [-> | ->]].
    - reflexivity.
    - now destruct (quiz s).
    - destruct (quiz s); [| reflexivity].
      now rewrite bool_decide_eq_true_2. }
  cbv zeta. rewrite E. cbn. repeat split; eauto.
Qed.

Lemma grading_needs_quiz_and_answers_witness :
  let s := Sample.state None (Some GradingSample.two_right) in
  quiz s = None
  /\ u_current_step (fst (grading_node Sample.env_ok s 0%nat)) = Some "grading_error"
  /\ u_score (fst (grading_node Sample.env_ok s 0%nat)) = None.
Proof.
  cbv zeta.
  pose proof (grading_needs_quiz_and_answers Sample.env_ok
                (Sample.state None (Some GradingSample.two_right)) 0%nat
                (or_introl eq_refl)) as H.
  cbv zeta in H. split; [reflexivity |]. split; apply H.
Defined.

(** ** C6 and C10: questions graded by comparison *)













(** ** C5: the aggregate score *)

Lemma sum_points_app ds d :
  sum_points (ds ++ [d]) = sum_points ds + points_earned d.
Proof.
  unfold sum_points. induction ds as [| x ds IH]; cbn [app map fold_right]; lia.
Qed.

(** [total_earned] is the sum of [points_earned] over the details. *)
Lemma grade_questions_total env answers qs :
  forall ds te cc c ds' te' cc' c',
    grade_questions env answers qs ds te cc c = (Ok (ds', te', cc'), c') ->
    te' - sum_points ds' = te - sum_points ds.
Proof.
  induction qs as [| q qs IH]; intros ds te cc c ds' te' cc' c' H.
  - now inversion H.
  - cbn [grade_questions] in H. apply bind_ok in H as (d & c1 & _ & H).
    apply IH in H. rewrite sum_points_app in H. lia.
Qed.

Lemma percent_score_without_points e t c :
  t <= 0 -> percent_score e t c = (Ok 0, c).
Proof.
  intros Ht. unfold percent_score.
  destruct (0 <? t) eqn:H; [apply Z.ltb_lt in H; lia | reflexivity].
Qed.

Lemma percent_table :
  forallb (fun t => forallb (fun e => percent_close e t) (seq 0 201)) (seq 1 200)
  = true.
Proof. vm_compute. reflexivity. Qed.

Lemma percent_score_close e t sc c c' :
  0 < t <= 200 -> 0 <= e <= 200 ->
  percent_score e t c = (Ok sc, c') ->
  100 * e / t - 1 <= sc <= 100 * e / t.
Proof.
  intros Ht He Hp.
  pose proof percent_table as Htab.
  rewrite forallb_forall in Htab.
  specialize (Htab (Z.to_nat t)).
  rewrite forallb_forall in Htab.
  assert (Hin_t : In (Z.to_nat t) (seq 1 200)) by (apply in_seq; lia).
  assert (Hin_e : In (Z.to_nat e) (seq 0 201)) by (apply in_seq; lia).
  specialize (Htab Hin_t (Z.to_nat e) Hin_e).
  unfold percent_close in Htab. rewrite !Z2Nat.id in Htab by lia.
  rewrite percent_score_calls in Hp. inversion Hp as [[Hfst Hc]].
  destruct (percent_score e t 0%nat) as [[sc0 | ex] c0]; cbn [fst] in Hfst; [| discriminate].
  inversion Hfst; subst sc0.
  apply andb_true_iff in Htab as [H1 H2].
  apply Z.leb_le in H1, H2. lia.
Qed.

(** C5, as the code has it.  The score [grading_node] returns is
    [int((total_earned / total_points) * 100)], where [total_earned] is the
    sum of the points earned on the questions: the percentage cut to an
    integer, not rounded to the nearest one.  For a quiz of at most 200
    points it is the integer part of the exact percentage or, where the
    binary product falls just short of a whole number, one below it.  A quiz
    whose [total_points] is 0 (or negative) gets the score 0 and no division
    takes place. *)
Theorem score_is_truncated_percentage :
  forall (env : Env) (s : StudyFlowState) (c : Calls) (qz : Quiz)
         (sc : Z) (details : ScoreDetails),
    quiz s = Some qz ->
    u_score (fst (grading_node env s c)) = Some sc ->
    u_score_details (fst (grading_node env s c)) = Some details ->
    let earned := sum_points (question_scores details) in
    let total := total_points qz in
    (forall k, percent_score earned total k = (Ok sc, k))
    /\ (forall e k, percent_score e 0 k = (Ok 0, k))
    /\ (total <= 0 -> sc = 0)
    /\ (0 < total <= 200 -> 0 <= earned <= 200 ->
        100 * earned / total - 1 <= sc <= 100 * earned / total).
Proof.
  intros env s c qz sc details Hq Hs Hd earned total.
  assert (Hp : forall k, percent_score earned total k = (Ok sc, k)).
  { destruct (grading_node env s c) as [u c'] eqn:Hu. cbn [fst] in Hs, Hd.
    unfold grading_node in Hu.
    apply try_return_cases in Hu as [Hu | (e & _ & ->)]; [| discriminate Hs].
    unfold grading_body in Hu. rewrite Hq in Hu.
    destruct (user_answers s) as [answers |]; [| discriminate Hu].
    destruct (bool_decide _); [discriminate Hu |].
    apply bind_ok in Hu as ([[ds te] cc] & c1 & Hg & Hu).
    apply bind_ok in Hu as (sc' & c2 & Hsc & Hu).
    inversion Hu; subst u c2. cbn in Hs, Hd.
    inversion Hs; subst sc'. inversion Hd; subst details.
    apply grade_questions_total in Hg.
    unfold earned, total. cbn [question_scores].
    change (sum_points []) with 0 in Hg.
    replace (sum_points ds) with te by lia.
    intros k. rewrite percent_score_calls.
    rewrite percent_score_calls in Hsc. inversion Hsc as [[Hfst Hc]].
    now rewrite Hfst. }
  split; [exact Hp |].
  split; [intros e k; now apply percent_score_without_points |].
  split.
  - intros Ht. specialize (Hp 0%nat).
    rewrite percent_score_without_points in Hp by exact Ht. now inversion Hp.
  - intros Ht He. exact (percent_score_close _ _ _ _ _ Ht He (Hp 0%nat)).
Qed.

Lemma score_is_truncated_percentage_witness :
  let s := Sample.state (Some Sample.quiz3) (Some GradingSample.two_right) in
  exists details,
    quiz s = Some Sample.quiz3
    /\ u_score (fst (grading_node Sample.env_ok s 0%nat)) = Some 66
    /\ u_score_details (fst (grading_node Sample.env_ok s 0%nat)) = Some details
    /\ sum_points (question_scores details) = 2
    /\ 100 * 2 / 3 - 1 <= 66 <= 100 * 2 / 3.
Proof.
  cbv zeta.
  destruct (u_score_details
              (fst (grading_node Sample.env_ok
                      (Sample.state (Some Sample.quiz3) (Some GradingSample.two_right))
                      0%nat))) as [details |] eqn:Hd;
    [| vm_compute in Hd; discriminate Hd].
  assert (Hs : u_score
                 (fst (grading_node Sample.env_ok
                         (Sample.state (Some Sample.quiz3) (Some GradingSample.two_right))
                         0%nat)) = Some 66) by (vm_compute; reflexivity).
  assert (He : sum_points (question_scores details) = 2)
    by (vm_compute in Hd; inversion Hd; reflexivity).
  pose proof (score_is_truncated_percentage Sample.env_ok
                (Sample.state (Some Sample.quiz3) (Some GradingSample.two_right))
                0%nat Sample.quiz3 66 details eq_refl Hs Hd) as H.
  cbv zeta in H. rewrite He in H.
  change (total_points Sample.quiz3) with 3 in H.
  exists details. repeat split; try assumption; try reflexivity;
    apply (proj2 (proj2 (proj2 H))); lia.
Defined.

(** Two of three points: the code returns 66, rounding to the nearest
    integer gives 67. *)
Lemma two_of_three_is_66 :
  exists details,
    grading_node Sample.env_ok
      (Sample.state (Some Sample.quiz3) (Some GradingSample.two_right)) 0%nat
    = (grading_update 66 details, 0%nat)
    /\ sum_points (question_scores details) = 2
    /\ total_points Sample.quiz3 = 3
    /\ spec_round_score 2 3 = 67.
Proof.
  eexists. split; [vm_compute; reflexivity |]. repeat split.
Qed.

(** ** C7: the keyword fallback of short_answer questions *)

Lemma share_table :
  forallb
    (fun k => forallb
                (fun m => forallb (fun p => share_exact m k p) (seq 0 1001))
                (seq 0 (S k)))
    (seq 1 5)
  = true.
Proof. vm_compute. reflexivity. Qed.

Lemma share_value m k p c :
  0 < k <= 5 -> 0 <= m <= k -> 0 <= p <= 1000 ->
  bind (py_truediv m k)
       (fun ratio => py_int (PrimFloat.mul ratio (PyFloat.of_int p))) c
  = (Ok (m * p / k), c).
Proof.
  intros Hk Hm Hp.
  pose proof share_table as Htab.
  rewrite forallb_forall in Htab.
  assert (Hin_k : In (Z.to_nat k) (seq 1 5)) by (apply in_seq; lia).
  specialize (Htab _ Hin_k). rewrite forallb_forall in Htab.
  assert (Hin_m : In (Z.to_nat m) (seq 0 (S (Z.to_nat k)))) by (apply in_seq; lia).
  specialize (Htab _ Hin_m). rewrite forallb_forall in Htab.
  assert (Hin_p : In (Z.to_nat p) (seq 0 1001)) by (apply in_seq; lia).
  specialize (Htab _ Hin_p).
  unfold share_exact in Htab. rewrite !Z2Nat.id in Htab by lia.
  unfold bind, py_truediv, py_int, ret, raise in *.
  destruct (k =? 0); [discriminate Htab |].
  destruct (PyFloat.truncate _) as [pe |]; [| discriminate Htab].
  apply Z.eqb_eq in Htab. now rewrite Htab.
Qed.


Lemma filter_length_le {A} (f : A -> bool) (l : list A) :
  (List.length (List.filter f l) <= List.length l)%nat.
Proof.
  induction l as [| x l IH]; cbn [List.filter List.length]; [lia |].
  destruct (f x); cbn [List.length]; lia.
Qed.




(** ** C9: retrieval that fails *)



(** * Further properties *)

(** ** Invariants of runs and sessions *)

Lemma run_preserves_snapshot env (P : Snapshot -> Prop) :
  (forall cp n c, P cp -> next cp = Goto n -> P (fst (step env n (values cp) c))) ->
  forall fuel resuming latest history c l h c',
    run env fuel resuming latest history c = Some (l, h, c') ->
    P latest -> Forall P history ->
    P l /\ Forall P h.
Proof.
  intros Hstep. induction fuel as [| fuel IH];
    intros resuming latest history c l h c' Hrun Hl Hh; [discriminate |].
  rewrite run_unfold in Hrun. destruct (next latest) as [n |] eqn:Hn.
  - destruct (interrupt_before n && negb resuming).
    + inversion Hrun; subst. auto.
    + specialize (Hstep latest n c Hl Hn).
      destruct (step env n (values latest) c) as [after c1].
      eapply IH; eauto.
  - inversion Hrun; subst. auto.
Qed.

(** An invariant of checkpoints that the first checkpoint has, that every
    node keeps and that [update_state] keeps holds at every checkpoint of
    every session. *)
Lemma reachable_invariant env (P : Snapshot -> Prop) :
  (forall q tid, P {| values := initial_state q tid; next := Goto Planner |}) ->
  (forall cp n c, P cp -> next cp = Goto n -> P (fst (step env n (values cp) c))) ->
  (forall cp answers,
      P cp ->
      P {| values := apply_update (values cp) (answers_update answers);
           next := next cp |}) ->
  forall x, reachable env x -> Forall P (checkpoints x).
Proof.
  intros Hinit Hstep Hupd x Hx.
  induction Hx as [q tid c [[l h] c'] Hrun
                  | latest history c answers [[l h] c'] _ IH Hrun].
  - unfold start_study_flow in Hrun.
    destruct (run_preserves_snapshot env P Hstep _ _ _ _ _ _ _ _ Hrun)
      as [Hl Hh]; [apply Hinit | constructor |].
    now apply List.Forall_cons.
  - unfold submit_answers in Hrun. cbn [checkpoints] in IH.
    destruct (run_preserves_snapshot env P Hstep _ _ _ _ _ _ _ _ Hrun)
      as [Hl Hh]; [apply Hupd; now apply Forall_inv in IH | exact IH |].
    now apply List.Forall_cons.
Qed.

(** X1.  Every session rests in front of human_review or at [END]: after
    [start_study_flow] and after every [submit_answers] the thread is either
    paused at the interrupt or finished, and no other node is pending.  Both
    functions always return. *)
Theorem session_rests_at_interrupt_or_end :
  forall (env : Env) (x : Session),
    reachable env x ->
    (next (fst (fst x)) = Goto HumanReview \/ next (fst (fst x)) = END)
    /\ (forall answers,
           is_Some (submit_answers env (fst (fst x)) (snd (fst x)) answers (snd x))).
Proof.
  intros env x Hx. split; [exact (reachable_rests env x Hx) |].
  intros answers. unfold submit_answers. apply run_terminates.
Qed.

Lemma session_rests_at_interrupt_or_end_witness :
  exists x,
    start_study_flow Sample.env_ok "python basics" "t1" 0%nat = Some x
    /\ reachable Sample.env_ok x
    /\ (next (fst (fst x)) = Goto HumanReview \/ next (fst (fst x)) = END).
Proof.
  destruct (start_study_flow Sample.env_ok "python basics" "t1" 0%nat)
    as [x |] eqn:Hp; [| vm_compute in Hp; discriminate Hp].
  exists x.
  assert (Hx : reachable Sample.env_ok x) by (eapply reach_start; exact Hp).
  repeat split; [exact Hx | exact (proj1 (session_rests_at_interrupt_or_end _ _ Hx))].
Defined.

(** ** Feedback and the router together *)

(** X2.  After a feedback that succeeded the router sends the run back to
    quiz_generator exactly when the score is below 60 and [retry_count] was
    below 2 on entry: feedback has already added one to the counter when
    [should_continue] compares it with 3, so a quiz is regenerated at most
    twice in a row, not three times. *)
Theorem retry_only_below_two :
  forall (env : Env) (s : StudyFlowState) (c : Calls) (u : Update) (c' : Calls),
    feedback_node env s c = (u, c') ->
    u_error u = None ->
    exists sc,
      score s = Some sc
      /\ (should_continue (apply_update s u) = "retry"
          <-> sc < 60 /\ retry_count s < 2)
      /\ (edge Feedback (apply_update s u) = Goto QuizGenerator
          <-> sc < 60 /\ retry_count s < 2)
      /\ (sc < 60 -> retry_count s = 2 ->
          should_retry (apply_update s u) = true
          /\ retry_count (apply_update s u) = 3
          /\ edge Feedback (apply_update s u) = END).
Proof.
  intros env s c u c' Hu Herr.
  apply feedback_node_shape in Hu as [(t & sc & Hsc & ->) | [e ->]];
    [| discriminate Herr].
  exists sc. split; [exact Hsc |].
  unfold edge, should_continue. cbn.
  destruct (sc <? 60) eqn:H60; [apply Z.ltb_lt in H60 | apply Z.ltb_ge in H60];
    cbn [andb].
  - destruct (retry_count s <? 3) eqn:H3;
      [apply Z.ltb_lt in H3 | apply Z.ltb_ge in H3]; cbn [andb].
    + destruct (retry_count s + 1 <? 3) eqn:H2;
        [apply Z.ltb_lt in H2 | apply Z.ltb_ge in H2]; cbn.
      * repeat split; try reflexivity; try lia.
      * repeat split; try discriminate; try reflexivity; try lia.
        all: intros [_ ?]; lia.
    + repeat split; try discriminate; try lia.
      all: intros [_ ?]; lia.
  - repeat split; try discriminate; try lia.
    all: intros [? _]; lia.
Qed.

Lemma retry_only_below_two_witness :
  let s := apply_update (Sample.state (Some Sample.quiz3) (Some GradingSample.two_right))
             (grading_update 50 {| correct_count := 1; total_count := 3;
                                   question_scores := [] |}) in
  exists u c',
    feedback_node Sample.env_ok s 0%nat = (u, c')
    /\ u_error u = None
    /\ should_continue (apply_update s u) = "retry".
Proof.
  cbv zeta.
  destruct (feedback_node Sample.env_ok
              (apply_update (Sample.state (Some Sample.quiz3) (Some GradingSample.two_right))
                 (grading_update 50 {| correct_count := 1; total_count := 3;
                                       question_scores := [] |})) 0%nat)
    as [u c'] eqn:Hu.
  assert (He : u_error u = None) by (vm_compute in Hu; inversion Hu; reflexivity).
  destruct (retry_only_below_two _ _ _ _ _ Hu He) as (sc & Hsc & Hiff & _).
  exists u, c'. repeat split; try assumption.
  apply Hiff. cbn in Hsc. inversion Hsc; subst sc. cbn. lia.
Defined.

(** X3.  When feedback fails, the dictionary it returns holds neither
    [should_retry] nor [retry_count]: the router decides on the values the
    previous cycle left, so it repeats the previous decision, and the
    feedback text of the previous cycle stays in the state. *)
Theorem failed_feedback_repeats_decision :
  forall (env : Env) (s : StudyFlowState) (c : Calls) (u : Update) (c' : Calls),
    feedback_node env s c = (u, c') ->
    is_Some (u_error u) ->
    u_error_node u = Some "feedback"
    /\ should_retry (apply_update s u) = should_retry s
    /\ retry_count (apply_update s u) = retry_count s
    /\ feedback (apply_update s u) = feedback s
    /\ edge Feedback (apply_update s u) = edge Feedback s.
Proof.
  intros env s c u c' Hu Herr.
  apply feedback_node_shape in Hu as [(t & sc & Hsc & ->) | [e ->]].
  - cbn in Herr. destruct Herr as [? Herr]. discriminate Herr.
  - repeat split.
Qed.

Lemma failed_feedback_repeats_decision_witness :
  let s := Sample.state (Some Sample.quiz3) (Some GradingSample.two_right) in
  exists u c',
    feedback_node Sample.env_ok s 0%nat = (u, c')
    /\ is_Some (u_error u)
    /\ edge Feedback (apply_update s u) = edge Feedback s.
Proof.
  cbv zeta.
  destruct (feedback_node Sample.env_ok
              (Sample.state (Some Sample.quiz3) (Some GradingSample.two_right)) 0%nat)
    as [u c'] eqn:Hu.
  assert (He : is_Some (u_error u))
    by (vm_compute in Hu; inversion Hu; eexists; reflexivity).
  exists u, c'. repeat split; try assumption.
  apply (failed_feedback_repeats_decision _ _ _ _ _ Hu He).
Defined.

(** ** The two endpoints *)

Lemma step_cycle_inv env cp n c :
  cycle_inv cp -> next cp = Goto n -> cycle_inv (fst (step env n (values cp) c)).
Proof.
  unfold cycle_inv, step. intros (Hrc & Hk & Hq) Hn.
  assert (Hk2 : retry_count (values cp) <= 2) by (apply Hk; rewrite Hn; discriminate).
  assert (Hq' : n <> Feedback ->
                is_Some (error (values cp))
                \/ should_retry (values cp) = true
                \/ score (values cp) = None
                \/ (exists sc, score (values cp) = Some sc /\ 60 <= sc)).
  { intros Hne. destruct Hq as [H | [H | [H | [H | H]]]]; auto.
    rewrite Hn in H. inversion H. contradiction. }
  destruct (node_fn env n (values cp) c) as [u c1] eqn:Hu. cbn [fst values next].
  destruct n; cbn [node_fn] in Hu; cbn [edge].
  - apply planner_node_shape in Hu as [[x ->] | [e ->]]; cbn;
      (split; [lia |]); (split; [intros _; lia |]);
      destruct Hq' as [H | [H | [H | H]]]; try discriminate; eauto 6.
  - apply retrieval_node_shape in Hu as [x ->]; cbn;
      (split; [lia |]); (split; [intros _; lia |]);
      destruct Hq' as [H | [H | [H | H]]]; try discriminate; eauto 6.
  - apply quiz_generator_node_shape in Hu as [[x ->] | [e ->]]; cbn;
      (split; [lia |]); (split; [intros _; lia |]);
      destruct Hq' as [H | [H | [H | H]]]; try discriminate; eauto 6.
  - inversion Hu; subst u c1. cbn.
    (split; [lia |]); (split; [intros _; lia |]).
    destruct Hq' as [H | [H | [H | H]]]; try discriminate; eauto 6.
  - apply grading_node_shape in Hu as [(x & y & ->) | [e ->]]; cbn;
      (split; [lia |]); (split; [intros _; lia |]); eauto 6.
  - apply feedback_node_shape in Hu as [(t & sc & Hsc & ->) | [e ->]].
    + unfold should_continue. cbn.
      assert (H3 : (retry_count (values cp) <? 3) = true) by (apply Z.ltb_lt; lia).
      rewrite H3, andb_true_r.
      destruct (sc <? 60) eqn:H60; [apply Z.ltb_lt in H60 | apply Z.ltb_ge in H60].
      * split; [lia |]. split; [| auto].
        destruct (retry_count (values cp) + 1 <? 3) eqn:H2; cbn;
          [apply Z.ltb_lt in H2; intros _; lia | intros H; now elim H].
      * split; [lia |]. split; [intros H; now elim H |].
        right. right. right. left. exists sc. split; [exact Hsc | lia].
    + cbn. split; [lia |]. split; [intros _; lia |]. left. eauto.
Qed.

Lemma reachable_cycle_inv env x :
  reachable env x -> Forall cycle_inv (checkpoints x).
Proof.
  apply reachable_invariant.
  - intros q tid. unfold cycle_inv. cbn. repeat split; try lia. auto.
  - intros cp n c. apply step_cycle_inv.
  - intros cp answers. unfold cycle_inv. cbn. auto.
Qed.

(** X4.  The answer "failed" of the submit-answers endpoint is never given.
    In every session, whatever the answers, a 200 response has the status
    "retry" or the status "completed" with a score of at least 60: a state
    without retry and with a score below 60 would need feedback to run with
    [retry_count] at 3, and the run ends as soon as the counter reaches 3. *)
Theorem submit_never_answers_failed :
  forall (env : Env) (x : Session) (answers : gmap string string)
         (body : SubmitAnswersResponse) (x' : option Session),
    reachable env x ->
    submit_user_answers env x answers = (Http200 body, x') ->
    (submit_status body = "retry" /\ submit_should_retry body = true)
    \/ (submit_status body = "completed"
        /\ submit_should_retry body = false
        /\ exists sc, submit_score body = Some sc /\ 60 <= sc).
Proof.
  intros env [[latest history] c] answers body x' Hx Hsub.
  unfold submit_user_answers in Hsub.
  destruct (submit_answers env latest history answers c)
    as [[[l h] c'] |] eqn:Hrun; [| discriminate Hsub].
  assert (Hx' : reachable env (l, h, c')) by (eapply reach_submit; eauto).
  pose proof (reachable_cycle_inv env _ Hx') as Hinv.
  apply Forall_inv in Hinv. destruct Hinv as (_ & _ & Hq).
  assert (Hrest : reachable env (l, h, c') ->
                  next l = Goto HumanReview \/ next l = END).
  { intros _. unfold submit_answers in Hrun. apply run_final in Hrun. tauto. }
  inversion Hsub as [[Hresp Hsess]]. clear Hsub Hsess.
  unfold submit_response in Hresp.
  destruct (error (values l)) as [err |] eqn:He; [discriminate Hresp |].
  destruct (should_retry (values l)) eqn:Hr.
  - inversion Hresp; subst body. left. cbn. auto.
  - destruct (score (values l)) as [sc |] eqn:Hs; [| discriminate Hresp].
    destruct Hq as [H | [H | [H | [H | H]]]].
    + destruct H as [? H]. discriminate H.
    + discriminate H.
    + discriminate H.
    + destruct H as (sc' & Hsc' & Hge). inversion Hsc'; subst sc'.
      assert (H60 : (60 <=? sc) = true) by (apply Z.leb_le; exact Hge).
      rewrite H60 in Hresp. inversion Hresp; subst body.
      right. cbn. repeat split. exists sc. auto.
    + exfalso. destruct (Hrest Hx') as [H' | H']; rewrite H in H'; discriminate H'.
Qed.

Lemma submit_never_answers_failed_witness :
  exists paused body x',
    start_study_flow Sample.env_ok "python basics" "t1" 0%nat = Some paused
    /\ submit_user_answers Sample.env_ok paused (<["q1" := "B"]> ∅) = (Http200 body, x')
    /\ ((submit_status body = "retry" /\ submit_should_retry body = true)
        \/ (submit_status body = "completed"
            /\ submit_should_retry body = false
            /\ exists sc, submit_score body = Some sc /\ 60 <= sc)).
Proof.
  destruct (start_study_flow Sample.env_ok "python basics" "t1" 0%nat)
    as [paused |] eqn:Hp; [| vm_compute in Hp; discriminate Hp].
  assert (Hx : reachable Sample.env_ok paused) by (eapply reach_start; exact Hp).
  destruct (submit_user_answers Sample.env_ok paused (<["q1" := "B"]> ∅))
    as [[body |] x'] eqn:Hs.
  - exists paused, body, x'. split; [reflexivity |]. split; [exact Hs |].
    exact (submit_never_answers_failed _ _ _ _ _ Hx Hs).
  - exfalso. vm_compute in Hp. inversion Hp; subst paused.
    vm_compute in Hs. discriminate Hs.
Defined.

(** What the last node of [start_study_flow] leaves when the state it
    returns has no error. *)
Lemma start_without_error env q tid c l h c' :
  start_study_flow env q tid c = Some (l, h, c') ->
  error (values l) = None ->
  current_step (values l) = "quiz_generated"
  /\ is_Some (learning_plan (values l))
  /\ is_Some (quiz (values l))
  /\ is_Some (retrieved_docs (values l))
  /\ thread_id (values l) = tid
  /\ next l = Goto HumanReview.
Proof.
  intros Hrun Herr.
  destruct (start_study_flow_unfold env q tid c) as (Hrun' & _ & _ & E3).
  cbv zeta in Hrun', E3. rewrite Hrun in Hrun'. injection Hrun' as Hl Hh Hc.
  clear Hh Hc Hrun. subst l.
  unfold step in *. cbn [node_fn values] in *.
  destruct (planner_node env (initial_state q tid) c) as [u1 c1] eqn:H1.
  cbn [fst snd values] in *.
  destruct (retrieval_node env (apply_update (initial_state q tid) u1) c1)
    as [u2 c2] eqn:H2.
  cbn [fst snd values] in *.
  destruct (quiz_generator_node env
              (apply_update (apply_update (initial_state q tid) u1) u2) c2)
    as [u3 c3] eqn:H3.
  cbn [fst snd values next] in *.
  apply planner_node_shape in H1 as [[plan ->] | [e ->]].
  - apply retrieval_node_shape in H2 as [docs ->].
    apply quiz_generator_node_shape in H3 as [[qz ->] | [e ->]].
    + cbn. repeat split; eauto.
    + discriminate Herr.
  - apply retrieval_node_shape in H2 as [docs ->].
    apply quiz_generator_node_shape in H3 as [[qz ->] | [e' ->]]; discriminate Herr.
Qed.

(** X5.  A 200 response of the start endpoint always carries a learning plan
    and a quiz, the thread id that was requested (the generated one when
    none or an empty one was), the status "waiting_for_answers" and the
    current step "quiz_generated"; the session it leaves is paused in front
    of human_review. *)
Theorem start_workflow_ok_response :
  forall (env : Env) (user_question : string) (requested : option string)
         (generated : string) (c : Calls)
         (body : StartWorkflowResponse) (x : option Session),
    start_workflow env user_question requested generated c = (Http200 body, x) ->
    start_status body = "waiting_for_answers"
    /\ start_current_step body = "quiz_generated"
    /\ is_Some (start_learning_plan body)
    /\ is_Some (start_quiz body)
    /\ start_thread_id body = thread_id_or requested generated
    /\ exists latest history c',
         x = Some (latest, history, c')
         /\ next latest = Goto HumanReview
         /\ thread_id (values latest) = start_thread_id body.
Proof.
  intros env q requested generated c body x Hstart.
  unfold start_workflow in Hstart.
  destruct (start_study_flow env q (thread_id_or requested generated) c)
    as [[[l h] c'] |] eqn:Hrun; [| discriminate Hstart].
  inversion Hstart as [[Hresp Hx]]. clear Hstart.
  unfold start_response in Hresp.
  destruct (error (values l)) eqn:Herr; [discriminate Hresp |].
  inversion Hresp; subst body. cbn.
  destruct (start_without_error env _ _ _ _ _ _ Hrun Herr) as (H1 & H2 & H3 & _ & H5 & H6).
  repeat split; try assumption.
  exists l, h, c'. auto.
Qed.

Lemma start_workflow_ok_response_witness :
  exists body x,
    start_workflow Sample.env_ok "python basics" None "study_0123456789ab" 0%nat
    = (Http200 body, x)
    /\ start_current_step body = "quiz_generated"
    /\ start_thread_id body = "study_0123456789ab".
Proof.
  destruct (start_workflow Sample.env_ok "python basics" None "study_0123456789ab" 0%nat)
    as [[body |] x] eqn:Hs; [| vm_compute in Hs; discriminate Hs].
  exists body, x. split; [reflexivity |].
  destruct (start_workflow_ok_response _ _ _ _ _ _ _ Hs) as (_ & H2 & _ & _ & H5 & _).
  split; [exact H2 | exact H5].
Defined.

(** ** What a failing planner leads to *)

(** X6.  When the planner's request to the chat model fails,
    [start_study_flow] still runs retrieval and quiz_generator without any
    further call; the state it returns has no learning plan and no quiz,
    [retrieved_docs = []], and the error it carries is the one of
    quiz_generator (the missing learning plan), which has replaced the error
    of the planner. *)
Theorem planner_failure_is_masked :
  forall (env : Env) (user_question thread_id : string) (c : Calls) (e : exn),
    plan_model env c = Raise e ->
    exists latest history,
      start_study_flow env user_question thread_id c = Some (latest, history, S c)
      /\ learning_plan (values latest) = None
      /\ quiz (values latest) = None
      /\ retrieved_docs (values latest) = Some []
      /\ current_step (values latest) = "quiz_error"
      /\ error_node (values latest) = Some "quiz_generator"
      /\ error (values latest)
         = Some ("练习题生成失败", ValueError "学习计划不存在，无法生成练习题")
      /\ start_response thread_id (values latest) = Http500.
Proof.
  intros env q tid c e Hplan.
  destruct (start_study_flow_unfold env q tid c) as (Hrun & _).
  cbv zeta in Hrun. rewrite Hrun. clear Hrun.
  unfold step. cbn [node_fn values].
  assert (H1 : planner_node env (initial_state q tid) c
               = (error_update "学习计划生成失败" "planner" "planner_error" e, S c)).
  { unfold planner_node, try_return, bind, call. now rewrite Hplan. }
  rewrite H1. cbn [fst snd values].
  eexists _, _. split; [reflexivity |]. cbn. repeat split.
Qed.

Lemma planner_failure_is_masked_witness :
  exists latest history,
    plan_model Sample.env_planner_fails 0%nat = Raise (CapabilityError "quota exceeded")
    /\ start_study_flow Sample.env_planner_fails "python basics" "t1" 0%nat
       = Some (latest, history, 1%nat)
    /\ error_node (values latest) = Some "quiz_generator".
Proof.
  destruct (planner_failure_is_masked Sample.env_planner_fails "python basics" "t1"
              0%nat (CapabilityError "quota exceeded") eq_refl)
    as (latest & history & Hrun & _ & _ & _ & _ & Hnode & _).
  exists latest, history. repeat split; assumption.
Defined.

(** X7.  Retrieval cannot make the start fail: when the chat model answers
    the request of the planner and the request of quiz_generator,
    [start_study_flow] returns a state without error that holds exactly
    that plan and that quiz, whatever the index and the retriever do. *)
Theorem start_succeeds_whatever_retrieval_does :
  forall (env : Env) (user_question thread_id : string) (c : Calls)
         (plan : LearningPlan) (qz : Quiz),
    plan_model env c = Ok plan ->
    let s1 := apply_update (initial_state user_question thread_id)
                (planner_update plan) in
    quiz_model env (snd (retrieval_node env s1 (S c))) = Ok qz ->
    exists latest history c',
      start_study_flow env user_question thread_id c = Some (latest, history, c')
      /\ learning_plan (values latest) = Some plan
      /\ quiz (values latest) = Some qz
      /\ is_Some (retrieved_docs (values latest))
      /\ error (values latest) = None
      /\ current_step (values latest) = "quiz_generated"
      /\ exists body, start_response thread_id (values latest) = Http200 body.
Proof.
  intros env q tid c plan qz Hplan s1 Hquiz.
  destruct (start_study_flow_unfold env q tid c) as (Hrun & _).
  cbv zeta in Hrun. rewrite Hrun. clear Hrun.
  unfold step. cbn [node_fn values].
  assert (H1 : planner_node env (initial_state q tid) c = (planner_update plan, S c)).
  { unfold planner_node, try_return, bind, call. now rewrite Hplan. }
  rewrite H1. cbn [fst snd values]. fold s1.
  destruct (retrieval_node env s1 (S c)) as [u2 c2] eqn:H2.
  cbn [fst snd values] in *.
  apply retrieval_node_shape in H2 as [docs ->].
  assert (H3 : quiz_generator_node env (apply_update s1 (retrieval_update docs)) c2
               = (quiz_update qz, S c2)).
  { unfold quiz_generator_node, try_return, quiz_generator_body, bind, call.
    cbn. now rewrite Hquiz. }
  rewrite H3. cbn [fst snd values].
  eexists _, _, _. split; [reflexivity |]. cbn. repeat split; eauto.
Qed.

Lemma start_succeeds_whatever_retrieval_does_witness :
  exists latest history c',
    plan_model GradingSample.env_retriever_down 0%nat = Ok Sample.plan
    /\ start_study_flow GradingSample.env_retriever_down "python basics" "t1" 0%nat
       = Some (latest, history, c')
    /\ quiz (values latest) = Some Sample.quiz3
    /\ error (values latest) = None.
Proof.
  destruct (start_succeeds_whatever_retrieval_does
              GradingSample.env_retriever_down "python basics" "t1" 0%nat
              Sample.plan Sample.quiz3 eq_refl eq_refl)
    as (latest & history & c' & Hrun & _ & Hq & _ & He & _).
  exists latest, history, c'. repeat split; assumption.
Defined.

(** ** What never changes *)

Lemma step_plan_kept env cp n c :
  next cp = Goto n -> plan_kept cp (fst (step env n (values cp) c)).
Proof.
  unfold plan_kept, step. intros Hn.
  destruct (node_fn env n (values cp) c) as [u c1] eqn:Hu. cbn [fst values next].
  split; [reflexivity |]. split; [reflexivity |]. split.
  - destruct n; cbn [edge]; try discriminate. now destruct (String.eqb _ _).
  - intros Hne. destruct n; cbn [node_fn] in Hu.
    + now rewrite Hn in Hne.
    + apply retrieval_node_shape in Hu as [x ->]. reflexivity.
    + apply quiz_generator_node_shape in Hu as [[x ->] | [e ->]]; reflexivity.
    + inversion Hu. reflexivity.
    + apply grading_node_shape in Hu as [(x & y & ->) | [e ->]]; reflexivity.
    + apply feedback_node_shape in Hu as [(t & sc & _ & ->) | [e ->]]; reflexivity.
Qed.

Lemma reachable_plan_chain env x :
  reachable env x -> chained plan_kept (checkpoints x).
Proof.
  induction 1 as [q tid c [[l h] c'] Hrun
                 | latest history c answers [[l h] c'] Hx IH Hrun].
  - unfold start_study_flow in Hrun.
    eapply run_chained; [apply step_plan_kept | exact Hrun | exact I].
  - pose proof Hrun as Hrun'. unfold submit_answers in Hrun'.
    eapply run_chained; [apply step_plan_kept | exact Hrun' |].
    cbn [chained checkpoints] in *. split; [| exact IH].
    unfold plan_kept. cbn. repeat split.
    destruct (reachable_rests env _ Hx) as [Hrest | Hrest]; cbn [fst] in Hrest;
      rewrite Hrest; discriminate.
Qed.

Lemma chained_plan_all cps :
  chained plan_kept cps ->
  forall a b, In a cps -> In b cps ->
    user_question (values a) = user_question (values b)
    /\ thread_id (values a) = thread_id (values b)
    /\ (next a <> Goto Planner -> next b <> Goto Planner ->
        learning_plan (values a) = learning_plan (values b)).
Proof.
  induction cps as [| newer rest IH]; intros Hc a b Ha Hb; [destruct Ha |].
  destruct rest as [| older rest'].
  - destruct Ha as [<- | []], Hb as [<- | []]. auto.
  - cbn [chained] in Hc. destruct Hc as [(Huq & Htid & Hnp & Hlp) Hc].
    specialize (IH Hc).
    assert (Hold : forall d, In d (older :: rest') ->
                   user_question (values newer) = user_question (values d)
                   /\ thread_id (values newer) = thread_id (values d)
                   /\ (next d <> Goto Planner ->
                       learning_plan (values newer) = learning_plan (values d))).
    { intros d Hd.
      destruct (IH older d (or_introl eq_refl) Hd) as (H1 & H2 & H3).
      split; [congruence |]. split; [congruence |].
      intros Hdn.
      destruct Hd as [<- | Hd].
      - now apply Hlp.
      - assert (Hon : next older <> Goto Planner).
        { destruct rest' as [| older' rest'']; [destruct Hd |].
          cbn [chained] in Hc. destruct Hc as [(_ & _ & Hn & _) _]. exact Hn. }
        rewrite (Hlp Hon). now apply H3. }
    destruct Ha as [<- | Ha], Hb as [<- | Hb].
    + auto.
    + destruct (Hold b Hb) as (H1 & H2 & H3). auto.
    + destruct (Hold a Ha) as (H1 & H2 & H3).
      split; [congruence |]. split; [congruence |].
      intros Han _. symmetry. now apply H3.
    + now apply IH.
Qed.

(** X8.  Within a session the question and the thread id are the same at
    every checkpoint, and the learning plan is written once: all checkpoints
    from the one the planner wrote onwards hold the same learning plan (or
    none at all, when the planner failed). *)
Theorem plan_is_written_once :
  forall (env : Env) (x : Session) (a b : Snapshot),
    reachable env x ->
    In a (checkpoints x) ->
    In b (checkpoints x) ->
    user_question (values a) = user_question (values b)
    /\ thread_id (values a) = thread_id (values b)
    /\ (next a <> Goto Planner -> next b <> Goto Planner ->
        learning_plan (values a) = learning_plan (values b)).
Proof.
  intros env x a b Hx. apply chained_plan_all.
  exact (reachable_plan_chain env x Hx).
Qed.

Lemma plan_is_written_once_witness :
  exists x,
    start_study_flow Sample.env_ok "python basics" "t1" 0%nat = Some x
    /\ reachable Sample.env_ok x
    /\ Forall (fun a => user_question (values a) = "python basics"
                        /\ thread_id (values a) = "t1")
         (checkpoints x).
Proof.
  destruct (start_study_flow Sample.env_ok "python basics" "t1" 0%nat)
    as [x |] eqn:Hp; [| vm_compute in Hp; discriminate Hp].
  exists x.
  assert (Hx : reachable Sample.env_ok x) by (eapply reach_start; exact Hp).
  split; [reflexivity |]. split; [exact Hx |].
  assert (Hlast : In {| values := initial_state "python basics" "t1";
                        next := Goto Planner |} (checkpoints x)).
  { vm_compute in Hp. inversion Hp; subst x. cbn. auto 10. }
  apply List.Forall_forall. intros a Ha.
  destruct (plan_is_written_once Sample.env_ok x a _ Hx Ha Hlast) as (H1 & H2 & _).
  split; assumption.
Defined.

(** ** More on grading *)

Lemma grade_question_calls env answers q c r c' :
  grade_question env answers q c = (r, c') ->
  c' = (c + (if is_short_answer q then 1 else 0))%nat.
Proof.
  unfold grade_question, is_short_answer. intros H.
  destruct (String.eqb (q_type q) "multiple_choice") eqn:E1.
  - apply String.eqb_eq in E1. rewrite E1. inversion H. cbn. lia.
  - destruct (String.eqb (q_type q) "fill_blank") eqn:E2.
    + apply String.eqb_eq in E2. rewrite E2. inversion H. cbn. lia.
    + destruct (String.eqb (q_type q) "short_answer").
      * unfold bind at 1 in H. unfold call in H.
        destruct (chat_model env c) as [text | e]; [| inversion H; lia].
        unfold bind, try_except in H.
        rewrite parse_reply_calls in H.
        destruct (fst (parse_reply text (q_points q) 0%nat)) as [g | e].
        -- inversion H. lia.
        -- unfold keyword_fallback, bind, py_truediv, py_int, ret, raise in H.
           destruct (_ =? 0); [inversion H; lia |].
           destruct (PyFloat.truncate _); inversion H; lia.
      * inversion H. lia.
Qed.

Lemma grade_questions_calls env answers qs :
  forall ds te cc c r c',
    grade_questions env answers qs ds te cc c = (r, c') ->
    (c <= c' <= c + count_short_answer qs)%nat
    /\ (forall v, r = Ok v -> c' = (c + count_short_answer qs)%nat).
Proof.
  unfold count_short_answer.
  induction qs as [| q qs IH]; intros ds te cc c r c' H.
  - inversion H; subst. cbn. split; [lia | intros; lia].
  - cbn [grade_questions] in H. unfold bind in H.
    destruct (grade_question env answers q c) as [[d | e] c1] eqn:Hq;
      apply grade_question_calls in Hq; cbn [List.filter];
      destruct (is_short_answer q); cbn [List.length].
    + apply IH in H as [H1 H2]. split; [lia |]. intros v Hv. rewrite (H2 v Hv). lia.
    + apply IH in H as [H1 H2]. split; [lia |]. intros v Hv. rewrite (H2 v Hv). lia.
    + inversion H; subst. split; [lia | discriminate].
    + inversion H; subst. split; [lia | discriminate].
Qed.

(** X9.  [grading_node] sends one request to the chat model for each
    short_answer question and none besides: a grading that succeeds has made
    exactly as many calls as the quiz has short_answer questions, a grading
    that fails has made at most that many. *)
Theorem grading_calls_once_per_short_answer :
  forall (env : Env) (s : StudyFlowState) (qz : Quiz) (c : Calls)
         (u : Update) (c' : Calls),
    quiz s = Some qz ->
    grading_node env s c = (u, c') ->
    (c <= c' <= c + count_short_answer (questions qz))%nat
    /\ (u_error u = None -> c' = (c + count_short_answer (questions qz))%nat).
Proof.
  intros env s qz c u c' Hq Hu.
  unfold grading_node, try_return, grading_body in Hu. rewrite Hq in Hu.
  destruct (user_answers s) as [answers |];
    [| inversion Hu; subst; split; [lia | discriminate]].
  destruct (bool_decide (answers = ∅));
    [inversion Hu; subst; split; [lia | discriminate] |].
  unfold bind at 1 in Hu.
  destruct (grade_questions env answers (questions qz) [] 0 0 c)
    as [[[[ds te] cc] | e] c1] eqn:Hg;
    apply grade_questions_calls in Hg as [Hb He].
  - rewrite (He _ eq_refl) in *.
    unfold bind in Hu. rewrite percent_score_calls in Hu.
    destruct (fst (percent_score te (total_points qz) 0%nat));
      inversion Hu; subst; split; try lia; auto.
  - inversion Hu; subst. split; [lia | discriminate].
Qed.

Lemma grading_calls_once_per_short_answer_witness :
  let s := Sample.state (Some quiz_with_essays) (Some essay_answers) in
  exists u,
    count_short_answer (questions quiz_with_essays) = 2%nat
    /\ grading_node env_grader s 5%nat = (u, 7%nat)
    /\ u_error u = None.
Proof.
  cbv zeta.
  assert (Herr : u_error
                   (fst (grading_node env_grader
                           (Sample.state (Some quiz_with_essays) (Some essay_answers))
                           5%nat)) = None) by (vm_compute; reflexivity).
  destruct (grading_node env_grader
              (Sample.state (Some quiz_with_essays) (Some essay_answers)) 5%nat)
    as [u c'] eqn:Hu.
  cbn [fst] in Herr.
  pose proof (proj2 (grading_calls_once_per_short_answer
                       env_grader
                       (Sample.state (Some quiz_with_essays) (Some essay_answers))
                       quiz_with_essays 5%nat u c' eq_refl Hu) Herr) as Hc.
  assert (Hcount : count_short_answer (questions quiz_with_essays) = 2%nat)
    by reflexivity.
  rewrite Hcount in Hc. cbn in Hc. subst c'.
  exists u. split; [exact Hcount |]. split; [reflexivity | exact Herr].
Defined.

Lemma parse_reply_clamped text p c pe fb c' :
  parse_reply text p c = (Ok (pe, fb), c') ->
  0 <= p -> 0 <= pe <= p.
Proof.
  unfold parse_reply. intros H Hp.
  apply bind_ok in H as (line & c1 & _ & H).
  apply bind_ok in H as (n & c2 & _ & H).
  apply bind_ok in H as (f & c3 & _ & H).
  inversion H; subst. lia.
Qed.

Lemma keyword_fallback_bounds a b p c pe fb c' :
  keyword_fallback a b p c = (Ok (pe, fb), c') ->
  0 <= p <= 1000 -> 0 <= pe <= p.
Proof.
  intros H Hp. unfold keyword_fallback in H.
  set (keywords := keywords_of a) in *.
  set (m := matched_keywords keywords b) in *.
  set (k := Z.of_nat (List.length keywords)) in *.
  assert (Hk5 : k <= 5).
  { unfold k, keywords, keywords_of.
    pose proof (firstn_le_length 5 (PyStr.split (PyStr.lower a))). lia. }
  assert (Hmk : 0 <= m <= k).
  { unfold m, k, matched_keywords.
    pose proof (filter_length_le (fun kw => PyStr.contains kw (PyStr.lower b)) keywords).
    lia. }
  destruct (Z.eq_dec k 0) as [Hk0 | Hk0].
  - unfold bind, py_truediv in H. rewrite Hk0 in H. discriminate H.
  - assert (Hkpos : 0 < k) by (unfold k in *; lia).
    assert (Hpe := share_value m k p c (conj Hkpos Hk5) Hmk Hp).
    apply bind_ok in H as (ratio & c1 & Hr & H).
    apply bind_ok in H as (pe0 & c2 & Hi & H).
    inversion H; subst pe0 fb c2. clear H.
    unfold bind in Hpe. rewrite Hr, Hi in Hpe.
    injection Hpe as Hv Hc.
    assert (0 <= m * p / k <= p); [| lia].
    split; [apply Z.div_pos; nia | apply Z.div_le_upper_bound; nia].
Qed.

(** What [grade_question] copies from the question, and the range of the
    points it gives. *)
Lemma grade_question_detail env answers q c d c' :
  grade_question env answers q c = (Ok d, c') ->
  question_id d = q_id q
  /\ correct_answer d = q_answer q
  /\ points_possible d = q_points q
  /\ (0 <= q_points q <= 1000 -> 0 <= points_earned d <= q_points q).
Proof.
  unfold grade_question. intros Hd.
  repeat match type of Hd with
         | (if ?b then _ else _) _ = _ => destruct b
         end.
  - inversion Hd; subst; cbn. repeat split; try lia;
      destruct (String.eqb _ _); lia.
  - inversion Hd; subst; cbn. repeat split; try lia;
      destruct (String.eqb _ _); lia.
  - apply bind_ok in Hd as (t & c2 & _ & Hd).
    apply bind_ok in Hd as ([pe fb] & c3 & Hg & Hd).
    assert (Hb : 0 <= q_points q <= 1000 -> 0 <= pe <= q_points q).
    { intros Hp. unfold try_except in Hg.
      destruct (parse_reply t (q_points q) c2) as [[[pe' fb'] | e] c4] eqn:Hparse.
      - inversion Hg; subst. eapply parse_reply_clamped; [exact Hparse | lia].
      - eapply keyword_fallback_bounds; [exact Hg | exact Hp]. }
    inversion Hd; subst; cbn. repeat split; lia.
  - inversion Hd; subst; cbn. repeat split; lia.
Qed.

Lemma grade_questions_details env answers qs :
  forall ds te cc c ds' te' cc' c',
    grade_questions env answers qs ds te cc c = (Ok (ds', te', cc'), c') ->
    exists new,
      ds' = (ds ++ new)%list
      /\ Forall2 (fun q d =>
                    question_id d = q_id q
                    /\ correct_answer d = q_answer q
                    /\ points_possible d = q_points q
                    /\ (0 <= q_points q <= 1000 -> 0 <= points_earned d <= q_points q))
           qs new
      /\ cc' = cc + Z.of_nat (List.length (List.filter is_correct new)).
Proof.
  induction qs as [| q qs IH]; intros ds te cc c ds' te' cc' c' H.
  - inversion H; subst. exists []. rewrite app_nil_r. cbn.
    split; [reflexivity |]. split; [constructor | lia].
  - cbn [grade_questions] in H. apply bind_ok in H as (d & c1 & Hd & H).
    apply grade_question_detail in Hd.
    apply IH in H as (new & -> & HF & ->).
    exists (d :: new). rewrite <- app_assoc. cbn [app List.filter].
    split; [reflexivity |]. split; [now constructor |].
    destruct (is_correct d); cbn [List.length]; lia.
Qed.

(** X10.  The report of a grading that succeeded matches the quiz: there is
    one detail for each question, in the order of the questions, with the
    id, the reference answer and the points of its question; [total_count]
    is the number of questions and [correct_count] the number of details
    marked correct, so [0 <= correct_count <= total_count]. *)
Theorem score_details_match_quiz :
  forall (env : Env) (s : StudyFlowState) (c : Calls) (u : Update) (c' : Calls)
         (d : ScoreDetails),
    grading_node env s c = (u, c') ->
    u_score_details u = Some d ->
    exists qz,
      quiz s = Some qz
      /\ Forall2 (fun q x =>
                    question_id x = q_id q
                    /\ correct_answer x = q_answer q
                    /\ points_possible x = q_points q)
           (questions qz) (question_scores d)
      /\ total_count d = Z.of_nat (List.length (question_scores d))
      /\ correct_count d
         = Z.of_nat (List.length (List.filter is_correct (question_scores d)))
      /\ 0 <= correct_count d <= total_count d.
Proof.
  intros env s c u c' d Hu Hd.
  unfold grading_node in Hu.
  apply try_return_cases in Hu as [Hu | (e & _ & ->)]; [| discriminate Hd].
  unfold grading_body in Hu.
  destruct (quiz s) as [qz |]; [| discriminate Hu]. exists qz.
  destruct (user_answers s) as [answers |]; [| discriminate Hu].
  destruct (bool_decide _); [discriminate Hu |].
  apply bind_ok in Hu as ([[ds te] cc] & c1 & Hg & Hu).
  apply bind_ok in Hu as (sc & c2 & _ & Hu).
  inversion Hu; subst u c2. cbn in Hd. inversion Hd; subst d. cbn.
  apply grade_questions_details in Hg as (new & -> & HF & ->).
  cbn [app].
  pose proof (List.Forall2_length HF) as Hlen.
  pose proof (filter_length_le is_correct new) as Hle.
  repeat split; try lia.
  eapply List.Forall2_impl; [| exact HF]. cbn. intros q x (H1 & H2 & H3 & _). auto.
Qed.

Lemma score_details_match_quiz_witness :
  let s := Sample.state (Some Sample.quiz3) (Some GradingSample.two_right) in
  exists u c' d,
    grading_node Sample.env_ok s 0%nat = (u, c')
    /\ u_score_details u = Some d
    /\ 0 <= correct_count d <= total_count d.
Proof.
  cbv zeta.
  destruct (grading_node Sample.env_ok
              (Sample.state (Some Sample.quiz3) (Some GradingSample.two_right)) 0%nat)
    as [u c'] eqn:Hu.
  destruct (u_score_details u) as [d |] eqn:Hd;
    [| vm_compute in Hu; inversion Hu; subst u; discriminate Hd].
  exists u, c', d. split; [reflexivity |]. split; [exact Hd |].
  destruct (score_details_match_quiz _ _ _ _ _ _ Hu Hd) as (qz & _ & _ & _ & _ & H).
  exact H.
Defined.

Lemma percent_sign_table :
  forallb (fun t => forallb (fun e => percent_not_negative e t) (seq 0 201)) (seq 1 200)
  = true.
Proof. vm_compute. reflexivity. Qed.

Lemma percent_score_not_negative e t sc c c' :
  0 < t <= 200 -> 0 <= e <= 200 ->
  percent_score e t c = (Ok sc, c') -> 0 <= sc.
Proof.
  intros Ht He Hp.
  pose proof percent_sign_table as Htab.
  rewrite forallb_forall in Htab.
  assert (Hin_t : In (Z.to_nat t) (seq 1 200)) by (apply in_seq; lia).
  specialize (Htab _ Hin_t). rewrite forallb_forall in Htab.
  assert (Hin_e : In (Z.to_nat e) (seq 0 201)) by (apply in_seq; lia).
  specialize (Htab _ Hin_e).
  unfold percent_not_negative in Htab. rewrite !Z2Nat.id in Htab by lia.
  rewrite percent_score_calls in Hp. inversion Hp as [[Hfst Hc]].
  destruct (percent_score e t 0%nat) as [[sc0 | ex] c0]; cbn [fst] in Hfst;
    [| discriminate].
  inversion Hfst; subst sc0. now apply Z.leb_le in Htab.
Qed.

Lemma sum_points_bounds qs new :
  Forall2 (fun q d =>
             question_id d = q_id q
             /\ correct_answer d = q_answer q
             /\ points_possible d = q_points q
             /\ (0 <= q_points q <= 1000 -> 0 <= points_earned d <= q_points q))
    qs new ->
  (forall q, In q qs -> 0 <= q_points q <= 1000) ->
  Forall (fun x => 0 <= points_earned x <= points_possible x) new
  /\ 0 <= sum_points new <= sum_question_points qs.
Proof.
  unfold sum_points, sum_question_points.
  induction 1 as [| q d qs new (_ & _ & Hpp & Hb) _ IH]; intros Hall.
  - split; [constructor | cbn; lia].
  - destruct IH as [IH1 IH2]; [intros q' Hq'; apply Hall; now right |].
    specialize (Hb (Hall q (or_introl eq_refl))).
    split; [constructor; [lia | exact IH1] |].
    cbn [map fold_right]. lia.
Qed.

(** X11.  When every question of the quiz carries between 0 and 1000
    points, a grading that succeeded gives each question between 0 and its
    own points, whatever the chat model answered.  The score itself is
    between 0 and 100 when, besides, [total_points] is not smaller than the
    points of the questions together (and at most 200); the code does not
    bring the score into that range by itself. *)
Theorem earned_points_and_score_in_range :
  forall (env : Env) (s : StudyFlowState) (c : Calls) (u : Update) (c' : Calls)
         (qz : Quiz) (sc : Z) (d : ScoreDetails),
    quiz s = Some qz ->
    grading_node env s c = (u, c') ->
    u_score u = Some sc ->
    u_score_details u = Some d ->
    (forall q, In q (questions qz) -> 0 <= q_points q <= 1000) ->
    Forall (fun x => 0 <= points_earned x <= points_possible x) (question_scores d)
    /\ 0 <= sum_points (question_scores d) <= sum_question_points (questions qz)
    /\ (sum_question_points (questions qz) <= total_points qz <= 200 ->
        0 <= sc <= 100).
Proof.
  intros env s c u c' qz sc d Hq Hu Hs Hd Hall.
  unfold grading_node in Hu.
  apply try_return_cases in Hu as [Hu | (e & _ & ->)]; [| discriminate Hd].
  unfold grading_body in Hu. rewrite Hq in Hu.
  destruct (user_answers s) as [answers |]; [| discriminate Hu].
  destruct (bool_decide _); [discriminate Hu |].
  apply bind_ok in Hu as ([[ds te] cc] & c1 & Hg & Hu).
  apply bind_ok in Hu as (sc' & c2 & Hp & Hu).
  inversion Hu; subst u c2. cbn in Hs, Hd.
  inversion Hs; subst sc'. inversion Hd; subst d. cbn [question_scores].
  pose proof (grade_questions_total _ _ _ _ _ _ _ _ _ _ _ Hg) as Hte.
  change (sum_points []) with 0 in Hte.
  apply grade_questions_details in Hg as (new & -> & HF & _). cbn [app] in *.
  destruct (sum_points_bounds _ _ HF Hall) as [H1 H2].
  split; [exact H1 |]. split; [exact H2 |].
  intros Ht.
  destruct (Z_le_gt_dec (total_points qz) 0) as [Hz | Hz].
  - rewrite percent_score_without_points in Hp by exact Hz.
    inversion Hp; subst sc. lia.
  - assert (Ht' : 0 < total_points qz <= 200) by lia.
    assert (He : 0 <= te <= 200) by lia.
    pose proof (percent_score_not_negative _ _ _ _ _ Ht' He Hp).
    pose proof (percent_score_close _ _ _ _ _ Ht' He Hp).
    assert (100 * te / total_points qz <= 100); [| lia].
    apply Z.div_le_upper_bound; lia.
Qed.

Lemma earned_points_and_score_in_range_witness :
  let s := Sample.state (Some Sample.quiz3) (Some GradingSample.two_right) in
  exists u c' sc d,
    grading_node Sample.env_ok s 0%nat = (u, c')
    /\ u_score u = Some sc
    /\ u_score_details u = Some d
    /\ 0 <= sc <= 100.
Proof.
  cbv zeta.
  destruct (grading_node Sample.env_ok
              (Sample.state (Some Sample.quiz3) (Some GradingSample.two_right)) 0%nat)
    as [u c'] eqn:Hu.
  destruct (u_score u) as [sc |] eqn:Hs;
    [| vm_compute in Hu; inversion Hu; subst u; discriminate Hs].
  destruct (u_score_details u) as [d |] eqn:Hd;
    [| vm_compute in Hu; inversion Hu; subst u; discriminate Hd].
  exists u, c', sc, d. repeat split; try assumption.
  - assert (Hall : forall q, In q (questions Sample.quiz3) -> 0 <= q_points q <= 1000).
    { intros q Hq. cbn in Hq. destruct Hq as [<- | [<- | [<- | []]]]; cbn; lia. }
    apply (proj2 (proj2 (earned_points_and_score_in_range
                           Sample.env_ok
                           (Sample.state (Some Sample.quiz3) (Some GradingSample.two_right))
                           0%nat u c' Sample.quiz3 sc d eq_refl Hu Hs Hd Hall))).
    vm_compute. split; discriminate.
  - assert (Hall : forall q, In q (questions Sample.quiz3) -> 0 <= q_points q <= 1000).
    { intros q Hq. cbn in Hq. destruct Hq as [<- | [<- | [<- | []]]]; cbn; lia. }
    apply (proj2 (proj2 (earned_points_and_score_in_range
                           Sample.env_ok
                           (Sample.state (Some Sample.quiz3) (Some GradingSample.two_right))
                           0%nat u c' Sample.quiz3 sc d eq_refl Hu Hs Hd Hall))).
    vm_compute. split; discriminate.
Defined.








(** ** More on retrieval *)

Lemma imap_contents (f : nat -> Document -> RetrievedDocument) docs :
  (forall i d, content (f i d) = page_content d) ->
  map content (imap f docs) = map page_content docs.
Proof.
  revert f. induction docs as [| d docs IH]; intros f Hf; [reflexivity |].
  cbn. rewrite Hf. f_equal. apply IH. intros i x. apply Hf.
Qed.

Lemma existsb_eqb_in x l :
  existsb (String.eqb x) l = true <-> In x l.
Proof.
  rewrite existsb_exists. split.
  - intros (y & Hy & He). apply String.eqb_eq in He. now subst.
  - intros H. exists x. split; [exact H | apply String.eqb_refl].
Qed.

Lemma append_new_picks additional :
  forall retrieved, exists picked,
    append_new additional retrieved
    = (retrieved ++ map supplementary_doc picked)%list
    /\ (List.length picked <= List.length additional)%nat
    /\ List.NoDup (map page_content picked)
    /\ (forall d, In d picked -> ~ In (page_content d) (map content retrieved))
    /\ (forall d, In d picked -> In d additional).
Proof.
  induction additional as [| doc rest IH]; intros retrieved.
  - exists []. cbn. rewrite app_nil_r.
    repeat split; [lia | constructor | tauto | tauto].
  - cbn [append_new].
    destruct (existsb (String.eqb (page_content doc)) (map content retrieved)) eqn:He.
    + destruct (IH retrieved) as (picked & -> & Hl & Hn & Hd & Hfrom).
      exists picked. cbn [List.length].
      split; [reflexivity |]. split; [lia |]. split; [exact Hn |].
      split; [exact Hd |]. intros d Hin. right. now apply Hfrom.
    + destruct (IH (retrieved ++ [supplementary_doc doc])%list)
        as (picked & -> & Hl & Hn & Hd & Hfrom).
      exists (doc :: picked). rewrite <- app_assoc. cbn [app map List.length].
      split; [reflexivity |]. split; [lia |].
      assert (Hnot : ~ In (page_content doc) (map content retrieved)).
      { intros Hin. apply existsb_eqb_in in Hin. congruence. }
      split; [| split; [intros d [<- | Hin]; [exact Hnot |] |]].
      * constructor; [| exact Hn].
        intros Hin. apply in_map_iff in Hin as (d & Hc & Hin).
        apply (Hd d Hin). rewrite map_app, in_app_iff. right. cbn. left.
        now symmetry.
      * intros Hc. apply (Hd d Hin). rewrite map_app, in_app_iff. now left.
      * intros d [<- | Hin]; [now left | right; now apply Hfrom].
Qed.

(** A supplementary document is one of the first two answers to the query
    for one of the key points. *)
Lemma supplement_adds env points :
  forall retrieved n retrieved' n',
    supplement env points retrieved n = (retrieved', n') ->
    exists extra,
      retrieved' = (retrieved ++ map supplementary_doc extra)%list
      /\ (List.length extra <= 2 * List.length points)%nat
      /\ List.NoDup (map page_content extra)
      /\ (forall d, In d extra -> ~ In (page_content d) (map content retrieved))
      /\ (n <= n' <= n + List.length points)%nat
      /\ (forall d, In d extra ->
            exists k point additional,
              (n <= k < n')%nat
              /\ In point points
              /\ retriever env k point = Ok additional
              /\ In d (firstn 2 additional)).
Proof.
  induction points as [| point rest IH]; intros retrieved n retrieved' n' H.
  - inversion H; subst. exists []. cbn. rewrite app_nil_r.
    repeat split; [lia | constructor | tauto | lia | lia | tauto].
  - cbn [supplement] in H.
    destruct (retriever env n point) as [additional | e] eqn:Hret.
    + destruct (append_new_picks (firstn 2 additional) retrieved)
        as (picked & Hp & Hl & Hn & Hd & Hfrom).
      rewrite Hp in H. apply IH in H as (extra & -> & Hl' & Hn' & Hd' & Hc & Hfrom').
      exists (picked ++ extra)%list.
      rewrite map_app, <- app_assoc. split; [reflexivity |].
      pose proof (firstn_le_length 2 additional) as Hf.
      assert (List.length (firstn 2 additional) <= 2)%nat
        by (rewrite length_firstn; lia).
      split; [rewrite length_app; cbn [List.length]; lia |].
      split; [| split; [| split]].
      * rewrite map_app. apply List.NoDup_app; [exact Hn | exact Hn' |].
        intros x Hx Hx'. apply in_map_iff in Hx' as (d & <- & Hin).
        apply (Hd' d Hin). rewrite map_app, in_app_iff. right.
        rewrite map_map. cbn. exact Hx.
      * intros d Hin. apply in_app_iff in Hin as [Hin | Hin]; [now apply Hd |].
        intros Hc'. apply (Hd' d Hin). rewrite map_app, in_app_iff. now left.
      * cbn [List.length]. lia.
      * intros d Hin. apply in_app_iff in Hin as [Hin | Hin].
        -- exists n, point, additional.
           split; [lia |]. split; [now left |]. split; [exact Hret |].
           now apply Hfrom.
        -- destruct (Hfrom' d Hin) as (k & pt & add & Hk & Hpt & Hq & Hin').
           exists k, pt, add.
           split; [lia |]. split; [now right |]. split; [exact Hq | exact Hin'].
    + inversion H; subst. exists []. cbn. rewrite app_nil_r.
      repeat split; [lia | constructor | tauto | lia | lia | tauto].
Qed.

Lemma primary_retrieval_calls env query c r c1 :
  primary_retrieval env query c = (r, c1) -> (c <= c1 <= c + 2)%nat.
Proof.
  unfold primary_retrieval, try_except, bind, call. intros H.
  destruct (load_index env c) as [v | e].
  - destruct (retriever env (S c) query) as [docs | e].
    + inversion H. lia.
    + destruct e; inversion H; lia.
  - destruct e; inversion H; lia.
Qed.

Lemma retrieval_node_result :
  forall (env : Env) (s : StudyFlowState) (c : Calls) (u : Update) (c' : Calls),
    retrieval_node env s c = (u, c') ->
    exists (primary extra : list Document),
      u = retrieval_update
            (imap primary_doc primary ++ map supplementary_doc extra)
      /\ (List.length extra <= 4)%nat
      /\ (extra <> [] -> (1 <= List.length primary <= 2)%nat)
      /\ List.NoDup (map page_content extra)
      /\ (forall d, In d extra ->
            ~ In (page_content d) (map page_content primary))
      /\ (c <= c' <= c + 4)%nat.
Proof.
  intros env s c u c' Hu.
  assert (Hempty : forall k, (c <= k <= c + 4)%nat ->
            u = retrieval_update [] -> c' = k ->
            exists primary extra : list Document,
              u = retrieval_update
                    (imap primary_doc primary ++ map supplementary_doc extra)
              /\ (List.length extra <= 4)%nat
              /\ (extra <> [] -> (1 <= List.length primary <= 2)%nat)
              /\ List.NoDup (map page_content extra)
              /\ (forall d, In d extra ->
                    ~ In (page_content d) (map page_content primary))
              /\ (c <= c' <= c + 4)%nat).
  { intros k Hk -> ->. exists [], []. cbn.
    split; [reflexivity |]. split; [lia |].
    split; [intros H; now elim H |]. split; [constructor |].
    split; [intros d [] | lia]. }
  unfold retrieval_node, try_return, retrieval_body in Hu.
  destruct (learning_plan s) as [plan |];
    [| inversion Hu; subst; apply (Hempty c'); [lia | reflexivity | reflexivity]].
  unfold bind at 1 in Hu.
  destruct (primary_retrieval env (topic plan) c) as [[docs | e] c1] eqn:Hp;
    apply primary_retrieval_calls in Hp;
    [| inversion Hu; subst; apply (Hempty c'); [lia | reflexivity | reflexivity]].
  destruct ((Z.of_nat (List.length (imap primary_doc docs)) <? 3)
            && negb (bool_decide (key_points plan = []))
            && negb (bool_decide (docs = []))) eqn:Hcond.
  - destruct (supplement env (firstn 2 (key_points plan)) (imap primary_doc docs) c1)
      as [rd n'] eqn:Hs.
    inversion Hu; subst u c'. clear Hu.
    apply supplement_adds in Hs as (extra & -> & Hl & Hn & Hd & Hc & _).
    assert (Hf : (List.length (firstn 2 (key_points plan)) <= 2)%nat)
      by (rewrite length_firstn; lia).
    exists docs, extra. split; [reflexivity |]. split; [lia |].
    apply andb_true_iff in Hcond as [Hcond Hdocs].
    apply andb_true_iff in Hcond as [Hlen _].
    apply Z.ltb_lt in Hlen. rewrite length_imap in Hlen.
    apply negb_true_iff, bool_decide_eq_false in Hdocs.
    split; [intros _; destruct docs; [congruence | cbn [List.length] in *; lia] |].
    split; [exact Hn |]. split; [| lia].
    intros d Hin. rewrite <- (imap_contents primary_doc docs); [now apply Hd |].
    reflexivity.
  - inversion Hu; subst u c'. clear Hu.
    exists docs, []. cbn [map]. rewrite app_nil_r.
    split; [reflexivity |]. split; [cbn; lia |].
    split; [intros H; now elim H |]. split; [constructor |].
    split; [intros d [] | lia].
Qed.

(** X13.  When the index loads and the retriever answers the query for the
    topic with [docs], the list [retrieval_node] returns starts with exactly
    these documents, in their order, ranked by position; after them come at
    most four supplementary documents.  Supplementary documents are only
    there when the main query found one or two documents and the plan has
    key points; each is one of the first two answers to the query for one of
    the first two key points; their texts are pairwise different and none
    repeats the text of a hit of the main query.  The node makes between two
    and four calls (index, main query, two key points). *)
Theorem retrieval_result_structure :
  forall (env : Env) (s : StudyFlowState) (c : Calls)
         (plan : LearningPlan) (docs : list Document),
    learning_plan s = Some plan ->
    load_index env c = Ok tt ->
    retriever env (S c) (topic plan) = Ok docs ->
    exists (extra : list Document) (c' : Calls),
      retrieval_node env s c
      = (retrieval_update
           (imap primary_doc docs ++ map supplementary_doc extra), c')
      /\ (List.length extra <= 4)%nat
      /\ (extra <> [] ->
          (1 <= List.length docs <= 2)%nat /\ key_points plan <> [])
      /\ List.NoDup (map page_content extra)
      /\ (forall d, In d extra ->
            ~ In (page_content d) (map page_content docs))
      /\ (forall d, In d extra ->
            exists k point additional,
              (c + 2 <= k < c')%nat
              /\ In point (firstn 2 (key_points plan))
              /\ retriever env k point = Ok additional
              /\ In d (firstn 2 additional))
      /\ (c + 2 <= c' <= c + 4)%nat.
Proof.
  intros env s c plan docs Hplan Hload Hmain.
  unfold retrieval_node, try_return, retrieval_body. rewrite Hplan.
  unfold bind at 1.
  assert (Hp : primary_retrieval env (topic plan) c = (Ok docs, S (S c))).
  { unfold primary_retrieval, try_except, bind, call.
    now rewrite Hload, Hmain. }
  rewrite Hp.
  destruct ((Z.of_nat (List.length (imap primary_doc docs)) <? 3)
            && negb (bool_decide (key_points plan = []))
            && negb (bool_decide (docs = []))) eqn:Hcond.
  - destruct (supplement env (firstn 2 (key_points plan)) (imap primary_doc docs)
                (S (S c))) as [rd n'] eqn:Hs.
    apply supplement_adds in Hs as (extra & -> & Hl & Hn & Hd & Hc & Hfrom).
    assert (Hf : (List.length (firstn 2 (key_points plan)) <= 2)%nat)
      by (rewrite length_firstn; lia).
    exists extra, n'. split; [reflexivity |]. split; [lia |].
    apply andb_true_iff in Hcond as [Hcond Hdocs].
    apply andb_true_iff in Hcond as [Hlen Hkeys].
    apply Z.ltb_lt in Hlen. rewrite length_imap in Hlen.
    apply negb_true_iff, bool_decide_eq_false in Hdocs.
    apply negb_true_iff, bool_decide_eq_false in Hkeys.
    split.
    { intros _. split; [| exact Hkeys].
      destruct docs; [congruence | cbn [List.length] in *; lia]. }
    split; [exact Hn |]. split.
    { intros d Hin. rewrite <- (imap_contents primary_doc docs); [now apply Hd |].
      reflexivity. }
    split; [| lia].
    intros d Hin. destruct (Hfrom d Hin) as (k & pt & add & Hk & Hpt & Hq & Hin').
    exists k, pt, add. split; [lia |]. auto.
  - exists [], (S (S c)). cbn [map]. rewrite app_nil_r.
    split; [reflexivity |]. split; [cbn; lia |].
    split; [intros H; now elim H |]. split; [constructor |].
    split; [intros d [] |]. split; [intros d [] | lia].
Qed.

Lemma retrieval_result_structure_witness :
  let s := values (fst (step env_one_hit Planner (initial_state "python basics" "t1") 0%nat)) in
  let hit := {| page_content := "Python is a language."; doc_metadata := [] |} in
  exists extra c',
    learning_plan s = Some Sample.plan
    /\ retriever env_one_hit 2%nat (topic Sample.plan) = Ok [hit]
    /\ retrieval_node env_one_hit s 1%nat
       = (retrieval_update
            (imap primary_doc [hit] ++ map supplementary_doc extra), c')
    /\ (List.length extra <= 4)%nat.
Proof.
  cbv zeta.
  destruct (retrieval_result_structure
              env_one_hit
              (values (fst (step env_one_hit Planner
                              (initial_state "python basics" "t1") 0%nat)))
              1%nat Sample.plan
              [ {| page_content := "Python is a language."; doc_metadata := [] |} ]
              eq_refl eq_refl eq_refl)
    as (extra & c' & Hnode & Hlen & _).
  exists extra, c'. split; [reflexivity |]. split; [reflexivity |].
  split; [exact Hnode | exact Hlen].
Defined.

Lemma imap_rank_scores (f : nat -> Document -> RetrievedDocument) (k : nat) docs :
  (forall i d, relevance_score (f i d) = rank_score (k + i)) ->
  map relevance_score (imap f docs) = map rank_score (seq k (List.length docs)).
Proof.
  revert f k. induction docs as [| d docs IH]; intros f k Hf; [reflexivity |].
  cbn. rewrite Hf, Nat.add_0_r. f_equal.
  apply IH. intros i x. unfold compose. rewrite Hf.
  now rewrite Nat.add_succ_r.
Qed.

Lemma main_hits_table :
  forallb (fun n => descending (relevance_profile n 0)) (seq 0 101) = true.
Proof. vm_compute. reflexivity. Qed.

Lemma supplemented_table :
  forallb (fun n => forallb (fun m => descending (relevance_profile n m)) (seq 0 5))
          (seq 0 3)
  = true.
Proof. vm_compute. reflexivity. Qed.

(** X14.  The documents [retrieval_node] returns are ranked: as long as the
    main query gives at most 100 hits, no document of the list has a higher
    relevance score than the one before it (hits of the main query by
    falling score from 1.0, supplementary documents after them at 0.7). *)
Theorem retrieved_docs_are_ranked :
  forall (env : Env) (s : StudyFlowState) (c : Calls) (u : Update) (c' : Calls)
         (docs : list RetrievedDocument),
    retrieval_node env s c = (u, c') ->
    u_retrieved_docs u = Some docs ->
    (List.length docs <= 100)%nat ->
    descending (map relevance_score docs) = true.
Proof.
  intros env s c u c' docs Hu Hd Hlen.
  apply retrieval_node_result in Hu
    as (primary & extra & -> & Hle & Hne & _).
  cbn in Hd. inversion Hd; subst docs. clear Hd.
  rewrite length_app, length_imap, length_map in Hlen.
  assert (Hprofile :
            map relevance_score
              (imap primary_doc primary ++ map supplementary_doc extra)
            = relevance_profile (List.length primary) (List.length extra)).
  { unfold relevance_profile. rewrite map_app. f_equal.
    - apply (imap_rank_scores primary_doc 0). reflexivity.
    - clear. induction extra as [| d extra IH]; [reflexivity |].
      cbn. now rewrite <- IH. }
  rewrite Hprofile.
  destruct extra as [| d extra].
  - pose proof main_hits_table as Htab. rewrite forallb_forall in Htab.
    apply Htab. apply in_seq. cbn [List.length] in *. lia.
  - assert (H12 : (1 <= List.length primary <= 2)%nat) by (apply Hne; discriminate).
    pose proof supplemented_table as Htab. rewrite forallb_forall in Htab.
    assert (Hin_n : In (List.length primary) (seq 0 3)) by (apply in_seq; lia).
    specialize (Htab _ Hin_n). rewrite forallb_forall in Htab.
    apply Htab. apply in_seq. lia.
Qed.

Lemma retrieved_docs_are_ranked_witness :
  let s := values (fst (step env_one_hit Planner (initial_state "python basics" "t1") 0%nat)) in
  exists u c' docs,
    retrieval_node env_one_hit s 1%nat = (u, c')
    /\ u_retrieved_docs u = Some docs
    /\ List.length docs = 2%nat
    /\ descending (map relevance_score docs) = true.
Proof.
  cbv zeta.
  destruct (retrieval_node env_one_hit
              (values (fst (step env_one_hit Planner
                              (initial_state "python basics" "t1") 0%nat))) 1%nat)
    as [u c'] eqn:Hu.
  destruct (u_retrieved_docs u) as [docs |] eqn:Hd;
    [| vm_compute in Hu; inversion Hu; subst u; discriminate Hd].
  assert (Hlen : List.length docs = 2%nat).
  { vm_compute in Hu. inversion Hu; subst u. cbn in Hd. inversion Hd. reflexivity. }
  exists u, c', docs. repeat split; try assumption.
  apply (retrieved_docs_are_ranked _ _ _ _ _ _ Hu Hd). lia.
Defined.

(** ** How the nodes report a failure *)

(** X15.  Only planner, quiz_generator, grading and feedback ever return an
    error; retrieval and human_review never do.  A node that returns an
    error names itself in [error_node], sets [current_step] to its name
    followed by "_error" (quiz_generator writes "quiz_error"), and returns
    nothing else: no plan, documents, quiz, score, feedback or retry
    decision. *)
Theorem error_updates_name_their_node :
  forall (env : Env) (n : Node) (s : StudyFlowState) (c : Calls)
         (u : Update) (c' : Calls),
    node_fn env n s c = (u, c') ->
    is_Some (u_error u) ->
    (n = Planner \/ n = QuizGenerator \/ n = Grading \/ n = Feedback)
    /\ u_error_node u = Some (node_name n)
    /\ u_current_step u
       = Some (match n with
               | QuizGenerator => "quiz_error"
               | _ => node_name n +:+ "_error"
               end)
    /\ u_learning_plan u = None /\ u_retrieved_docs u = None
    /\ u_quiz u = None /\ u_score u = None /\ u_score_details u = None
    /\ u_feedback u = None /\ u_should_retry u = None
    /\ u_retry_count u = None.
Proof.
  intros env n s c u c' Hu [err Herr].
  destruct n; cbn [node_fn] in Hu.
  - apply planner_node_shape in Hu as [[x ->] | [e ->]]; [discriminate Herr |].
    cbn. repeat split; auto.
  - apply retrieval_node_shape in Hu as [x ->]. discriminate Herr.
  - apply quiz_generator_node_shape in Hu as [[x ->] | [e ->]]; [discriminate Herr |].
    cbn. repeat split; auto.
  - inversion Hu; subst u. discriminate Herr.
  - apply grading_node_shape in Hu as [(x & y & ->) | [e ->]]; [discriminate Herr |].
    cbn. repeat split; auto.
  - apply feedback_node_shape in Hu as [(t & sc & _ & ->) | [e ->]];
      [discriminate Herr |].
    cbn. repeat split; auto.
Qed.

Lemma error_updates_name_their_node_witness :
  exists u c',
    node_fn Sample.env_planner_fails QuizGenerator
      (initial_state "python basics" "t1") 0%nat = (u, c')
    /\ is_Some (u_error u)
    /\ u_error_node u = Some "quiz_generator"
    /\ u_current_step u = Some "quiz_error".
Proof.
  destruct (node_fn Sample.env_planner_fails QuizGenerator
              (initial_state "python basics" "t1") 0%nat) as [u c'] eqn:Hu.
  assert (He : is_Some (u_error u))
    by (vm_compute in Hu; inversion Hu; eexists; reflexivity).
  destruct (error_updates_name_their_node _ _ _ _ _ _ Hu He) as (_ & H1 & H2 & _).
  exists u, c'. repeat split; assumption.
Defined.

(** ** The last submission of a session *)

Lemma resume_once env latest history answers c l h c' :
  next latest = Goto HumanReview ->
  submit_answers env latest history answers c = Some (l, h, c') ->
  let s0 := apply_update (values latest) (answers_update answers) in
  let r1 := step env HumanReview s0 c in
  let r2 := step env Grading (values (fst r1)) (snd r1) in
  let r3 := step env Feedback (values (fst r2)) (snd r2) in
  (next (fst r3) = END /\ l = fst r3 /\ c' = snd r3)
  \/ (next (fst r3) = Goto QuizGenerator
      /\ l = fst (step env QuizGenerator (values (fst r3)) (snd r3))).
Proof.
  intros Hnext Hrun s0 r1 r2 r3.
  assert (E1 : next (fst r1) = Goto Grading)
    by (subst r1; unfold step; now destruct (node_fn _ _ _ _)).
  assert (E2 : next (fst r2) = Goto Feedback)
    by (subst r2; unfold step; now destruct (node_fn _ _ _ _)).
  assert (E3 : next (fst r3) = END \/ next (fst r3) = Goto QuizGenerator).
  { subst r3. unfold step. destruct (node_fn _ _ _ _). cbn [fst next edge].
    destruct (String.eqb _ _); auto. }
  assert (R1 : step env HumanReview s0 c = r1) by reflexivity.
  assert (R2 : step env Grading (values (fst r1)) (snd r1) = r2) by reflexivity.
  assert (R3 : step env Feedback (values (fst r2)) (snd r2) = r3) by reflexivity.
  clearbody r3 r2 r1.
  destruct r1 as [a1 c1], r2 as [a2 c2], r3 as [a3 c3]. cbn [fst snd] in *.
  unfold submit_answers, enough_fuel in Hrun. fold s0 in Hrun.
  rewrite run_unfold in Hrun. cbn [next values] in Hrun. rewrite Hnext in Hrun.
  cbn [interrupt_before andb negb] in Hrun. rewrite R1 in Hrun.
  rewrite run_unfold, E1 in Hrun. cbn [interrupt_before andb negb] in Hrun.
  rewrite R2 in Hrun.
  rewrite run_unfold, E2 in Hrun. cbn [interrupt_before andb negb] in Hrun.
  rewrite R3 in Hrun.
  rewrite run_unfold in Hrun. destruct E3 as [E3 | E3]; rewrite E3 in Hrun.
  - inversion Hrun; subst. left. auto.
  - cbn [interrupt_before andb negb] in Hrun.
    destruct (step env QuizGenerator (values a3) c3) as [a4 c4] eqn:R4.
    assert (E4 : next a4 = Goto HumanReview).
    { unfold step in R4. destruct (node_fn _ _ _ _). now inversion R4. }
    rewrite run_unfold, E4 in Hrun. cbn [interrupt_before andb negb] in Hrun.
    inversion Hrun; subst. right. auto.
Qed.

(** X16.  The third low score in a row ends the session without a new quiz,
    and the endpoint still answers "retry": when answers are submitted to a
    paused thread whose [retry_count] is 2 and the resulting state has no
    error and [should_retry] set, the run has stopped at [END] with
    [retry_count] 3 and the quiz that was just graded, while the response
    carries the status "retry" and the message that a new quiz was
    generated. *)
Theorem third_low_score_ends_with_retry_status :
  forall (env : Env) (latest : Snapshot) (history : list Snapshot)
         (answers : gmap string string) (c : Calls)
         (l : Snapshot) (h : list Snapshot) (c' : Calls),
    next latest = Goto HumanReview ->
    retry_count (values latest) = 2 ->
    submit_answers env latest history answers c = Some (l, h, c') ->
    error (values l) = None ->
    should_retry (values l) = true ->
    next l = END
    /\ retry_count (values l) = 3
    /\ quiz (values l) = quiz (values latest)
    /\ (exists sc, score (values l) = Some sc /\ sc < 60)
    /\ exists body,
         submit_response (thread_id (values l)) (values l) = Http200 body
         /\ submit_status body = "retry"
         /\ submit_message body = "得分未达标，已重新生成练习题，请继续答题。".
Proof.
  intros env latest history answers c l h c' Hnext Hrc Hrun Herr Hretry.
  pose proof (resume_once env latest history answers c l h c' Hnext Hrun) as Hres.
  cbv zeta in Hres.
  set (s0 := apply_update (values latest) (answers_update answers)) in *.
  unfold step in Hres. cbn [node_fn human_review_node fst snd values] in Hres.
  set (s1 := apply_update s0 _) in Hres.
  destruct (grading_node env s1 c) as [u2 c2] eqn:H2. cbn [fst snd values] in Hres.
  destruct (feedback_node env (apply_update s1 u2) c2) as [u3 c3] eqn:H3.
  cbn [fst snd values next] in Hres.
  assert (Hrc2 : retry_count (apply_update s1 u2) = 2).
  { apply grading_node_shape in H2 as [(x & y & ->) | [e ->]]; exact Hrc. }
  assert (Hq2 : quiz (apply_update s1 u2) = quiz (values latest)).
  { apply grading_node_shape in H2 as [(x & y & ->) | [e ->]]; reflexivity. }
  apply feedback_node_shape in H3 as [(t & sc & Hsc & ->) | [e ->]].
  - rewrite Hrc2 in Hres.
    change (2 <? 3) with true in Hres. rewrite andb_true_r in Hres.
    destruct (sc <? 60) eqn:H60.
    + apply Z.ltb_lt in H60.
      destruct Hres as [(_ & -> & _) | (Hq & _)];
        [| unfold edge, should_continue in Hq; cbn in Hq; discriminate Hq].
      cbn in Herr |- *. unfold should_continue. cbn.
      split; [reflexivity |]. split; [reflexivity |]. split; [exact Hq2 |].
      split; [exists sc; split; [exact Hsc | exact H60] |].
      unfold submit_response. cbn. rewrite Herr. cbn.
      eexists. split; [reflexivity |]. split; reflexivity.
    + exfalso.
      destruct Hres as [(_ & -> & _) | (_ & ->)].
      * cbn in Hretry. discriminate Hretry.
      * unfold step in Hretry.
        cbn [node_fn] in Hretry.
        destruct (quiz_generator_node env _ _) as [u4 c4] eqn:H4.
        apply quiz_generator_node_shape in H4 as [[x ->] | [e ->]];
          cbn in Hretry; discriminate Hretry.
  - exfalso.
    destruct Hres as [(_ & -> & _) | (_ & ->)].
    + cbn in Herr. discriminate Herr.
    + unfold step in Herr.
      cbn [node_fn] in Herr.
      destruct (quiz_generator_node env _ _) as [u4 c4] eqn:H4.
      apply quiz_generator_node_shape in H4 as [[x ->] | [e' ->]];
        cbn in Herr; discriminate Herr.
Qed.

Lemma third_low_score_ends_with_retry_status_witness :
  exists first second third,
    start_study_flow Sample.env_ok "python basics" "t1" 0%nat = Some first
    /\ submit_answers Sample.env_ok (fst (fst first)) (snd (fst first))
         GradingSample.padded (snd first) = Some second
    /\ submit_answers Sample.env_ok (fst (fst second)) (snd (fst second))
         GradingSample.padded (snd second) = Some third
    /\ retry_count (values (fst (fst third))) = 2
    /\ exists l h c',
         submit_answers Sample.env_ok (fst (fst third)) (snd (fst third))
           GradingSample.other_only (snd third) = Some (l, h, c')
         /\ next l = END
         /\ retry_count (values l) = 3.
Proof.
  assert (Hall :
            match start_study_flow Sample.env_ok "python basics" "t1" 0%nat with
            | Some (l0, h0, c0) =>
                match submit_answers Sample.env_ok l0 h0 GradingSample.padded c0 with
                | Some (l1, h1, c1) =>
                    match submit_answers Sample.env_ok l1 h1 GradingSample.padded c1 with
                    | Some (l2, h2, c2) =>
                        next l2 = Goto HumanReview
                        /\ retry_count (values l2) = 2
                        /\ match submit_answers Sample.env_ok l2 h2
                                   GradingSample.other_only c2 with
                           | Some (l3, _, _) =>
                               error (values l3) = None
                               /\ should_retry (values l3) = true
                           | None => False
                           end
                    | None => False
                    end
                | None => False
                end
            | None => False
            end) by (vm_compute; repeat split).
  destruct (start_study_flow Sample.env_ok "python basics" "t1" 0%nat)
    as [[[l0 h0] c0] |] eqn:H0; [| destruct Hall].
  destruct (submit_answers Sample.env_ok l0 h0 GradingSample.padded c0)
    as [[[l1 h1] c1] |] eqn:H1; [| destruct Hall].
  destruct (submit_answers Sample.env_ok l1 h1 GradingSample.padded c1)
    as [[[l2 h2] c2] |] eqn:H2; [| destruct Hall].
  destruct Hall as (Hn & Hrc & Hall).
  destruct (submit_answers Sample.env_ok l2 h2 GradingSample.other_only c2)
    as [[[l3 h3] c3] |] eqn:H3; [| destruct Hall].
  destruct Hall as (He & Hr).
  exists (l0, h0, c0), (l1, h1, c1), (l2, h2, c2). cbn [fst snd].
  split; [reflexivity |]. split; [exact H1 |]. split; [exact H2 |].
  split; [exact Hrc |].
  exists l3, h3, c3. split; [exact H3 |].
  destruct (third_low_score_ends_with_retry_status
              Sample.env_ok l2 h2 GradingSample.other_only c2 l3 h3 c3
              Hn Hrc H3 He Hr) as (Hend & Hthree & _).
  split; assumption.
Defined.

Lemma step_keeps_answers env n s c answers :
  user_answers s = Some answers ->
  user_answers (values (fst (step env n s c))) = Some answers.
Proof.
  unfold step. intros Hs.
  destruct (node_fn env n s c) as [u c1] eqn:Hu. cbn [fst values].
  destruct n; cbn [node_fn] in Hu.
  - apply planner_node_shape in Hu as [[x ->] | [e ->]]; exact Hs.
  - apply retrieval_node_shape in Hu as [x ->]; exact Hs.
  - apply quiz_generator_node_shape in Hu as [[x ->] | [e ->]]; exact Hs.
  - inversion Hu; subst. exact Hs.
  - apply grading_node_shape in Hu as [(x & y & ->) | [e ->]]; exact Hs.
  - apply feedback_node_shape in Hu as [(t & sc & _ & ->) | [e ->]]; exact Hs.
Qed.

Lemma run_keeps_latest env (P : StudyFlowState -> Prop) :
  (forall n s c, P s -> P (values (fst (step env n s c)))) ->
  forall fuel resuming latest history c l h c',
    run env fuel resuming latest history c = Some (l, h, c') ->
    P (values latest) -> P (values l).
Proof.
  intros Hstep. induction fuel as [| fuel IH];
    intros resuming latest history c l h c' Hrun Hl; [discriminate |].
  rewrite run_unfold in Hrun. destruct (next latest) as [n |].
  - destruct (interrupt_before n && negb resuming).
    + inversion Hrun; subst. exact Hl.
    + specialize (Hstep n (values latest) c Hl).
      destruct (step env n (values latest) c) as [after c1].
      eapply IH; eauto.
  - inversion Hrun; subst. exact Hl.
Qed.

(** X17.  The answers passed to [submit_answers] replace the stored ones as
    a whole; they are not merged with the answers of an earlier cycle.  The
    state the call returns holds exactly the submitted dictionary, also
    after a retry has generated a new quiz, and an entry of an earlier
    submission that is not submitted again is gone. *)
Theorem submitted_answers_replace_old_ones :
  forall (env : Env) (latest : Snapshot) (history : list Snapshot)
         (answers : gmap string string) (c : Calls)
         (l : Snapshot) (h : list Snapshot) (c' : Calls),
    submit_answers env latest history answers c = Some (l, h, c') ->
    user_answers (values l) = Some answers
    /\ (forall id old,
           user_answers (values latest) = Some old ->
           answers !! id = None ->
           forall now, user_answers (values l) = Some now -> now !! id = None).
Proof.
  intros env latest history answers c l h c' Hrun.
  assert (Ha : user_answers (values l) = Some answers).
  { unfold submit_answers in Hrun.
    apply (run_keeps_latest env (fun s => user_answers s = Some answers)
             (fun n s k => step_keeps_answers env n s k answers)
             _ _ _ _ _ _ _ _ Hrun).
    reflexivity. }
  split; [exact Ha |].
  intros id old _ Hnone now Hnow. rewrite Ha in Hnow. inversion Hnow; subst now.
  exact Hnone.
Qed.

Lemma submitted_answers_replace_old_ones_witness :
  exists first second third,
    start_study_flow Sample.env_ok "python basics" "t1" 0%nat = Some first
    /\ submit_answers Sample.env_ok (fst (fst first)) (snd (fst first))
         GradingSample.padded (snd first) = Some second
    /\ submit_answers Sample.env_ok (fst (fst second)) (snd (fst second))
         GradingSample.other_only (snd second) = Some third
    /\ user_answers (values (fst (fst third))) = Some GradingSample.other_only.
Proof.
  destruct (start_study_flow Sample.env_ok "python basics" "t1" 0%nat)
    as [[[l0 h0] c0] |] eqn:H0; [| vm_compute in H0; discriminate H0].
  destruct (submit_answers Sample.env_ok l0 h0 GradingSample.padded c0)
    as [[[l1 h1] c1] |] eqn:H1;
    [| exfalso; destruct (run_terminates Sample.env_ok true
                            {| values := apply_update (values l0)
                                           (answers_update GradingSample.padded);
                               next := next l0 |} (l0 :: h0) c0) as [r Hr];
       unfold submit_answers in H1; congruence].
  destruct (submit_answers Sample.env_ok l1 h1 GradingSample.other_only c1)
    as [[[l2 h2] c2] |] eqn:H2;
    [| exfalso; destruct (run_terminates Sample.env_ok true
                            {| values := apply_update (values l1)
                                           (answers_update GradingSample.other_only);
                               next := next l1 |} (l1 :: h1) c1) as [r Hr];
       unfold submit_answers in H2; congruence].
  exists (l0, h0, c0), (l1, h1, c1), (l2, h2, c2). cbn [fst snd].
  split; [reflexivity |]. split; [exact H1 |]. split; [exact H2 |].
  exact (proj1 (submitted_answers_replace_old_ones _ _ _ _ _ _ _ _ H2)).
Defined.
